(** * ncnn PipelineCache (src/pipelinecache.cpp): a shallow embedding

    The file embeds the Vulkan compute-pipeline cache of ncnn:
    the two hashes of the specialization constants, the cache digest,
    the shader-variant selection of [create_shader_module], the
    four-step pipeline construction of [new_pipeline] with its unwinding,
    the two [get_pipeline] entry points and [clear].

    Integers of the source are [Z]; unsigned 32-bit arithmetic wraps
    through [u32].  Vulkan handles are [Z] with [0] for VK_NULL_HANDLE.
    The device is outside the file: its primitives are answers of an
    oracle to the history of calls made so far, and every call is
    recorded in a trace. *)

From Stdlib Require Import ZArith List Bool Lia Permutation.
Import ListNotations.

Local Open Scope Z_scope.

(** ** Machine integers *)

Module Word32.

Definition modulus : Z := 2 ^ 32.

(** uint32_t: a value is kept modulo 2^32 *)
Definition u32 (x : Z) : Z := x mod modulus.

(** the conversion to [int] (32 bits, two's complement) *)
Definition to_int (x : Z) : Z :=
  let r := x mod modulus in
  if r <? 2 ^ 31 then r else r - modulus.

Definition INT_MAX : Z := 2 ^ 31 - 1.

(** [a * b], [a + b] and [a << n] on uint32_t *)
Definition mul32 (a b : Z) : Z := u32 (a * b).
Definition add32 (a b : Z) : Z := u32 (a + b).
Definition shl32 (a n : Z) : Z := u32 (Z.shiftl a n).

End Word32.
Import Word32.

(** ** The two hashes (lines 23-63) *)

(** The body of the [for] loop of [murmur3_32] for the word [k],
    from the running value [h]. *)
Definition murmur3_round (h k : Z) : Z :=
  let k := mul32 k 0xcc9e2d51 in
  let k := Z.lor (shl32 k 15) (Z.shiftr k (32 - 15)) in
  let k := mul32 k 0x1b873593 in
  let h := Z.lxor h k in
  let h := Z.lor (shl32 h 13) (Z.shiftr h (32 - 13)) in
  add32 (mul32 h 5) 0xe6546b64.

(** [for (int i = 0; i < size; i++)] over the words [*data++]. *)
Fixpoint murmur3_loop (data : list Z) (h : Z) : Z :=
  match data with
  | [] => h
  | k :: rest => murmur3_loop rest (murmur3_round h k)
  end.

(** [murmur3_32(const uint32_t* data, int size)].  The array is the list
    [data]; the loop visits its first [size] words (none when
    [size <= 0]). *)
Definition murmur3_32 (data : list Z) (size : Z) : Z :=
  let h := 0 in
  let h := murmur3_loop (firstn (Z.to_nat size) data) h in
  let h := Z.lxor h (u32 (size * 4)) in
  let h := Z.lxor h (Z.shiftr h 16) in
  let h := mul32 h 0x85ebca6b in
  let h := Z.lxor h (Z.shiftr h 13) in
  let h := mul32 h 0xc2b2ae35 in
  let h := Z.lxor h (Z.shiftr h 16) in
  h.

Fixpoint fnv1a_loop (data : list Z) (h : Z) : Z :=
  match data with
  | [] => h
  | b :: rest => fnv1a_loop rest (mul32 (Z.lxor h b) 0x01000193)
  end.

(** [fnv1a_32(const uint8_t* data, int size)] *)
Definition fnv1a_32 (data : list Z) (size : Z) : Z :=
  let h := 0x811c9dc5 in
  fnv1a_loop (firstn (Z.to_nat size) data) h.

(** *** The reference algorithms, as published

    Both are written on numbers modulo 2^32: a rotation is the sum of
    the shifted low part and the carried-out high part, and a hash is a
    left fold of its round over the input. *)
Module Reference.

Definition rotl32 (x r : Z) : Z :=
  (x * 2 ^ r) mod 2 ^ 32 + x / 2 ^ (32 - r).

Definition c1 : Z := 0xcc9e2d51.
Definition c2 : Z := 0x1b873593.

Definition murmur3_scramble (k : Z) : Z :=
  (rotl32 ((k * c1) mod 2 ^ 32) 15 * c2) mod 2 ^ 32.

Definition murmur3_mix (h k : Z) : Z :=
  (rotl32 (Z.lxor h (murmur3_scramble k)) 13 * 5 + 0xe6546b64) mod 2 ^ 32.

Definition fmix32 (h : Z) : Z :=
  let h := Z.lxor h (h / 2 ^ 16) in
  let h := (h * 0x85ebca6b) mod 2 ^ 32 in
  let h := Z.lxor h (h / 2 ^ 13) in
  let h := (h * 0xc2b2ae35) mod 2 ^ 32 in
  Z.lxor h (h / 2 ^ 16).

(** Murmur3-32 of a message made of whole words, with [seed] *)
Definition murmur3_words (seed : Z) (words : list Z) : Z :=
  fmix32 (Z.lxor (fold_left murmur3_mix words seed)
                 ((4 * Z.of_nat (length words)) mod 2 ^ 32)).

Definition fnv_offset_basis : Z := 0x811c9dc5.
Definition fnv_prime : Z := 0x01000193.

(** 32-bit FNV-1a: xor the byte in, then multiply by the prime *)
Definition fnv1a (bytes : list Z) : Z :=
  fold_left (fun h b => (Z.lxor h b * fnv_prime) mod 2 ^ 32)
            bytes fnv_offset_basis.

End Reference.


(** ** Data model *)

(** A Vulkan handle; [VK_NULL_HANDLE] is 0. *)
Definition VkHandle : Type := Z.
Definition VK_NULL_HANDLE : VkHandle := 0.

(** [if (handle)]: the handle is not null *)
Definition non_null (h : VkHandle) : bool := negb (h =? 0).

(** The members of [Option] the file reads. *)
Record Option : Type := mkOption {
  use_image_storage : bool;
  use_fp16_packed : bool;
  use_fp16_storage : bool;
  use_fp16_arithmetic : bool;
  use_int8_storage : bool;
  use_int8_arithmetic : bool
}.

(** The members of [vkdev->info] the file reads. *)
Record GpuInfo : Type := mkGpuInfo {
  bug_layout_binding_id_alias : bool;
  support_fp16_packed : bool;
  support_fp16_storage : bool;
  support_fp16_arithmetic : bool;
  support_VK_KHR_descriptor_update_template : bool
}.

(** The members of [ShaderInfo] the file reads. *)
Record ShaderInfo : Type := mkShaderInfo {
  specialization_count : Z;
  binding_count : Z;
  push_constant_count : Z;
  binding_types : list Z
}.

(** [vk_specialization_type] is one 32-bit word; a vector of them is a
    list of words. *)
Definition specialization_list : Type := list Z.

(** The bytes of a 32-bit word in memory, lowest first (the targets of the
    library are little-endian). *)
Definition word_bytes (w : Z) : list Z :=
  [ Z.land w 255;
    Z.land (Z.shiftr w 8) 255;
    Z.land (Z.shiftr w 16) 255;
    Z.land (Z.shiftr w 24) 255 ].

(** the vector's storage read as [const uint8_t] bytes *)
Definition specialization_bytes (specializations : specialization_list)
  : list Z :=
  flat_map word_bytes specializations.

Record pipeline_cache_digest : Type := mkDigest {
  shader_type_index : Z;
  opt_local_size_bits : list Z;
  specializations_murmur3 : Z;
  specializations_fnv1a : Z
}.

Record pipeline_cache_artifact : Type := mkArtifact {
  shader_module : VkHandle;
  descriptorset_layout : VkHandle;
  pipeline_layout : VkHandle;
  pipeline : VkHandle;
  descriptor_update_template : VkHandle;
  shader_info : ShaderInfo
}.

(** The two vectors of the cache object. *)
Record PipelineCache : Type := mkCache {
  cache_digests : list pipeline_cache_digest;
  cache_artifacts : list pipeline_cache_artifact
}.

(** The cache as the constructor leaves it. *)
Definition empty_cache : PipelineCache := mkCache [] [].

(** *** The digest (lines 65-87) *)

Section Digest.

(** The header that declares [opt_local_size_bits] is not part of the
    sources: the width in bits of one element of that array is a
    parameter.  An element keeps the value assigned to it modulo
    [2 ^ elem_bits]. *)
Variable elem_bits : Z.

Definition store_elem (v : Z) : Z := v mod 2 ^ elem_bits.

(** The packed option flags of [opt_local_size_bits[0]], as an [int]. *)
Definition encode_opt (opt : Option) : Z :=
  Z.lor (Z.lor (Z.lor (Z.lor (Z.lor
    (Z.shiftl (Z.b2z (use_image_storage opt)) 7)
    (Z.shiftl (Z.b2z (use_fp16_packed opt)) 6))
    (Z.shiftl (Z.b2z (use_fp16_storage opt)) 5))
    (Z.shiftl (Z.b2z (use_fp16_arithmetic opt)) 4))
    (Z.shiftl (Z.b2z (use_int8_storage opt)) 3))
    (Z.shiftl (Z.b2z (use_int8_arithmetic opt)) 2).

(** The constructor [pipeline_cache_digest(shader_type_index, opt,
    specializations, local_size_x, local_size_y, local_size_z)]. *)
Definition make_digest (_shader_type_index : Z) (opt : Option)
    (specializations : specialization_list)
    (local_size_x local_size_y local_size_z : Z) : pipeline_cache_digest :=
  let specialization_count := to_int (Z.of_nat (length specializations)) in
  {| shader_type_index := _shader_type_index;
     opt_local_size_bits :=
       [ store_elem (encode_opt opt);
         store_elem local_size_x;
         store_elem local_size_y;
         store_elem local_size_z ];
     specializations_murmur3 :=
       murmur3_32 specializations specialization_count;
     specializations_fnv1a :=
       fnv1a_32 (specialization_bytes specializations)
                (to_int (specialization_count * 4)) |}.

End Digest.

(** Modelled from the spec: [operator==] of [pipeline_cache_digest] is
    declared in the header, which is not part of the sources.  Two digests
    are equal when the shader type index, the packed option and local
    size elements (as raw integers) and both hashes are equal. *)
Definition digest_eqb (a b : pipeline_cache_digest) : bool :=
  (shader_type_index a =? shader_type_index b)
  && (if list_eq_dec Z.eq_dec (opt_local_size_bits a) (opt_local_size_bits b)
      then true else false)
  && (specializations_murmur3 a =? specializations_murmur3 b)
  && (specializations_fnv1a a =? specializations_fnv1a b).

(** ** The device and the trace of its calls *)

Inductive resource : Type :=
| ShaderModule
| DescriptorSetLayout
| PipelineLayout
| Pipeline
| DescriptorUpdateTemplate.

(** One call that leaves the file: a compilation, a reflection, the
    creation of an object with its outcome ([None] when the primitive
    reported a failure) or the destruction of a handle. *)
Inductive event : Type :=
| EvCompileSpirvModule (retc : Z)
| EvResolveShaderInfo (ret : Z)
| EvCreate (r : resource) (res : option VkHandle)
| EvDestroy (r : resource) (h : VkHandle).

Definition trace : Type := list event.

(** Modelled from the spec: the class [VulkanDevice] of gpu.h is not part
    of the sources.  Each create primitive returns a handle or a failure
    signal: [Some h] stands for the return value 0 with [h] written
    through the out pointer, [None] for a non-zero return value that
    leaves the pointee as it was.  The two shader-module primitives
    return the handle itself, null on failure.  An answer may depend on
    the arguments and on everything the device was asked before. *)
Module VulkanDevice.
Record t : Type := mk {
  info : GpuInfo;
  compile_shader_module :
    trace -> list Z -> Z -> Z -> Z -> Z -> VkHandle;
  create_shader_module :
    trace -> Z -> Z -> Z -> Z -> VkHandle;
  create_descriptorset_layout :
    trace -> Z -> list Z -> option VkHandle;
  create_pipeline_layout :
    trace -> Z -> VkHandle -> option VkHandle;
  create_pipeline :
    trace -> VkHandle -> VkHandle -> specialization_list -> option VkHandle;
  create_descriptor_update_template :
    trace -> Z -> list Z -> VkHandle -> VkHandle -> option VkHandle
}.
End VulkanDevice.

(** Modelled from the spec: the free functions of gpu.h the file calls.
    [compile_spirv_module] returns its status and the words it produced;
    [resolve_shader_info] returns its status and what it leaves in the
    [ShaderInfo] it was given; [get_shader_info] reads the table of the
    precompiled shaders. *)
Module Gpu.
Record t : Type := mk {
  compile_spirv_module : Z -> Option -> Z * list Z;
  resolve_shader_info : list Z -> Z -> ShaderInfo -> Z * ShaderInfo;
  get_shader_info : Z -> ShaderInfo
}.
End Gpu.

(** *** A state monad over the trace *)

Definition Dev (A : Type) : Type := trace -> A * trace.

Definition ret {A : Type} (a : A) : Dev A := fun t => (a, t).

Definition bind {A B : Type} (m : Dev A) (k : A -> Dev B) : Dev B :=
  fun t => let (a, t') := m t in k a t'.

Declare Scope dev_scope.
Delimit Scope dev_scope with dev.
Notation "x <- m ;; k" := (bind m (fun x => k))
  (at level 61, m at next level, right associativity) : dev_scope.
Notation "' pat <- m ;; k" :=
  (bind m (fun x => match x with pat => k end))
  (at level 61, pat pattern, m at next level, right associativity) : dev_scope.
Notation "m ;;; k" := (bind m (fun _ : unit => k))
  (at level 61, right associativity) : dev_scope.
Local Open Scope dev_scope.

(** record one event *)
Definition emit (e : event) : Dev unit := fun t => (tt, t ++ [e]).

(** the device's answer to the history so far *)
Definition ask {A : Type} (f : trace -> A) : Dev A := fun t => (f t, t).

Definition when (b : bool) (m : Dev unit) : Dev unit :=
  if b then m else ret tt.

(** a create primitive: ask, and record the outcome *)
Definition vk_create (r : resource) (f : trace -> option VkHandle)
  : Dev (option VkHandle) :=
  res <- ask f ;; emit (EvCreate r res) ;;; ret res.

(** a shader-module primitive: the handle is null on failure *)
Definition vk_shader_module (f : trace -> VkHandle) : Dev VkHandle :=
  h <- ask f ;;
  emit (EvCreate ShaderModule (if non_null h then Some h else None)) ;;;
  ret h.

(** [vkDestroy...(vkdev->vkdevice(), h, 0)] *)
Definition vk_destroy (r : resource) (h : VkHandle) : Dev unit :=
  emit (EvDestroy r h).

(** ** The out parameters *)

(** The pointees of the four out pointers of [new_pipeline]. *)
Record new_pipeline_outs : Type := mkObjects {
  out_descriptorset_layout : VkHandle;
  out_pipeline_layout : VkHandle;
  out_pipeline : VkHandle;
  out_descriptor_update_template : VkHandle
}.

(** The pointees of the out parameters of [get_pipeline]: the shader
    module, the four objects it hands on to [new_pipeline], and the
    [ShaderInfo] reference. *)
Record get_pipeline_outs : Type := mkOuts {
  out_shader_module : VkHandle;
  out_objects : new_pipeline_outs;
  out_shader_info : ShaderInfo
}.

(** ** The member functions *)

Section Members.

(** the preprocessor switch of [create_shader_module] *)
Variable NCNN_VULKAN_ONLINE_SPIRV : bool.
(** the width of an element of [opt_local_size_bits] *)
Variable elem_bits : Z.
Variable gpu : Gpu.t.
Variable vkdev : VulkanDevice.t.

Let info : GpuInfo := VulkanDevice.info vkdev.

(** *** [create_shader_module] (lines 257-360) *)

(** Lines 301-336: the chain of [if]/[else if] that moves
    [shader_type_index] to the variant of the shader. *)
Definition select_shader_type_index (opt : Option) (shader_type_index : Z)
  : Z :=
  if negb (bug_layout_binding_id_alias info) && use_image_storage opt
     && support_fp16_storage info && use_fp16_storage opt
     && support_fp16_arithmetic info && use_fp16_arithmetic opt
  then shader_type_index + 9
  else if negb (bug_layout_binding_id_alias info) && use_image_storage opt
     && support_fp16_packed info && use_fp16_packed opt
     && support_fp16_arithmetic info && use_fp16_arithmetic opt
  then shader_type_index + 7
  else if negb (bug_layout_binding_id_alias info) && use_image_storage opt
     && support_fp16_storage info && use_fp16_storage opt
  then shader_type_index + 8
  else if negb (bug_layout_binding_id_alias info) && use_image_storage opt
     && support_fp16_packed info && use_fp16_packed opt
  then shader_type_index + 6
  else if negb (bug_layout_binding_id_alias info) && use_image_storage opt
  then shader_type_index + 5
  else if support_fp16_storage info && use_fp16_storage opt
     && support_fp16_arithmetic info && use_fp16_arithmetic opt
  then shader_type_index + 4
  else if support_fp16_packed info && use_fp16_packed opt
     && support_fp16_arithmetic info && use_fp16_arithmetic opt
  then shader_type_index + 2
  else if support_fp16_storage info && use_fp16_storage opt
  then shader_type_index + 3
  else if support_fp16_packed info && use_fp16_packed opt
  then shader_type_index + 1
  else shader_type_index.

(** The tail of the function (lines 351-359), shared by both builds. *)
Definition create_shader_module_finish (shader_module : VkHandle)
    (_shader_module : VkHandle) (si : ShaderInfo)
  : Dev (Z * VkHandle * ShaderInfo) :=
  if negb (non_null shader_module)
  then ret (-1, _shader_module, si)
  else ret (0, shader_module, si).

(** [_shader_module] and [si] are what the out pointer and the
    reference hold at the call; the result carries what they hold at
    the return. *)
Definition create_shader_module (shader_type_index : Z) (opt : Option)
    (local_size_x local_size_y local_size_z : Z)
    (_shader_module : VkHandle) (si : ShaderInfo)
  : Dev (Z * VkHandle * ShaderInfo) :=
  if NCNN_VULKAN_ONLINE_SPIRV then
    let (retc, spirv) := Gpu.compile_spirv_module gpu shader_type_index opt in
    emit (EvCompileSpirvModule retc) ;;;
    if negb (retc =? 0) then ret (-1, _shader_module, si)
    else
      let spv_data := spirv in
      let spv_data_size := Z.of_nat (length spirv) * 4 in
      let (ret0, si) := Gpu.resolve_shader_info gpu spv_data spv_data_size si in
      emit (EvResolveShaderInfo ret0) ;;;
      if negb (ret0 =? 0) then ret (-1, _shader_module, si)
      else
        shader_module <-
          vk_shader_module (fun t =>
            VulkanDevice.compile_shader_module vkdev t spv_data spv_data_size
              local_size_x local_size_y local_size_z) ;;
        create_shader_module_finish shader_module _shader_module si
  else
    let shader_type_index := select_shader_type_index opt shader_type_index in
    let si := Gpu.get_shader_info gpu shader_type_index in
    shader_module <-
      vk_shader_module (fun t =>
        VulkanDevice.create_shader_module vkdev t shader_type_index
          local_size_x local_size_y local_size_z) ;;
    create_shader_module_finish shader_module _shader_module si.

(** *** [new_pipeline] (lines 362-434) *)

(** The code after the label [ERROR] (lines 408-433), from the four
    locals as they are when the [goto] is taken. *)
Definition new_pipeline_ERROR
    (descriptorset_layout pipeline_layout pipeline
       descriptor_update_template : VkHandle) : Dev Z :=
  when (support_VK_KHR_descriptor_update_template info)
    (when (non_null descriptor_update_template)
       (vk_destroy DescriptorUpdateTemplate descriptor_update_template)) ;;;
  when (non_null pipeline) (vk_destroy Pipeline pipeline) ;;;
  when (non_null pipeline_layout)
    (vk_destroy PipelineLayout pipeline_layout) ;;;
  when (non_null descriptorset_layout)
    (vk_destroy DescriptorSetLayout descriptorset_layout) ;;;
  ret (-1).

(** [outs] is what the four out pointers hold at the call. *)
Definition new_pipeline (shader_module : VkHandle) (shader_info : ShaderInfo)
    (specializations : specialization_list) (outs : new_pipeline_outs)
  : Dev (Z * new_pipeline_outs) :=
  let descriptorset_layout := VK_NULL_HANDLE in
  let pipeline_layout := VK_NULL_HANDLE in
  let pipeline := VK_NULL_HANDLE in
  let descriptor_update_template := VK_NULL_HANDLE in
  let ERROR dsl pl p dut :=
    r <- new_pipeline_ERROR dsl pl p dut ;; ret (r, outs) in
  if negb (to_int (Z.of_nat (length specializations))
           =? specialization_count shader_info)
  then ERROR descriptorset_layout pipeline_layout pipeline
             descriptor_update_template
  else
  res <- vk_create DescriptorSetLayout (fun t =>
           VulkanDevice.create_descriptorset_layout vkdev t
             (binding_count shader_info) (binding_types shader_info)) ;;
  match res with
  | None => ERROR descriptorset_layout pipeline_layout pipeline
                  descriptor_update_template
  | Some descriptorset_layout =>
  res <- vk_create PipelineLayout (fun t =>
           VulkanDevice.create_pipeline_layout vkdev t
             (push_constant_count shader_info) descriptorset_layout) ;;
  match res with
  | None => ERROR descriptorset_layout pipeline_layout pipeline
                  descriptor_update_template
  | Some pipeline_layout =>
  res <- vk_create Pipeline (fun t =>
           VulkanDevice.create_pipeline vkdev t
             shader_module pipeline_layout specializations) ;;
  match res with
  | None => ERROR descriptorset_layout pipeline_layout pipeline
                  descriptor_update_template
  | Some pipeline =>
  let success descriptor_update_template :=
    ret (0, {| out_descriptorset_layout := descriptorset_layout;
               out_pipeline_layout := pipeline_layout;
               out_pipeline := pipeline;
               out_descriptor_update_template :=
                 descriptor_update_template |}) in
  if support_VK_KHR_descriptor_update_template info then
    res <- vk_create DescriptorUpdateTemplate (fun t =>
             VulkanDevice.create_descriptor_update_template vkdev t
               (binding_count shader_info) (binding_types shader_info)
               descriptorset_layout pipeline_layout) ;;
    match res with
    | None => ERROR descriptorset_layout pipeline_layout pipeline
                    descriptor_update_template
    | Some descriptor_update_template => success descriptor_update_template
    end
  else success descriptor_update_template
  end end end.

(** *** [clear] (lines 99-136) *)

(** The body of the loop for the artifact [cc]. *)
Definition clear_artifact (cc : pipeline_cache_artifact) : Dev unit :=
  when (support_VK_KHR_descriptor_update_template info)
    (when (non_null (descriptor_update_template cc))
       (vk_destroy DescriptorUpdateTemplate
          (descriptor_update_template cc))) ;;;
  when (non_null (pipeline cc)) (vk_destroy Pipeline (pipeline cc)) ;;;
  when (non_null (pipeline_layout cc))
    (vk_destroy PipelineLayout (pipeline_layout cc)) ;;;
  when (non_null (descriptorset_layout cc))
    (vk_destroy DescriptorSetLayout (descriptorset_layout cc)) ;;;
  when (non_null (shader_module cc))
    (vk_destroy ShaderModule (shader_module cc)).

(** [for (size_t i = 0; i < cache_artifacts.size(); i++)] *)
Fixpoint clear_loop (artifacts : list pipeline_cache_artifact) : Dev unit :=
  match artifacts with
  | [] => ret tt
  | cc :: rest => clear_artifact cc ;;; clear_loop rest
  end.

Definition clear (c : PipelineCache) : Dev PipelineCache :=
  clear_loop (cache_artifacts c) ;;;
  ret {| cache_digests := []; cache_artifacts := [] |}.

(** *** [get_pipeline] from SPIR-V words (lines 138-189) *)

Definition get_pipeline_spv (spv_data : list Z) (spv_data_size : Z)
    (specializations : specialization_list)
    (local_size_x local_size_y local_size_z : Z)
    (outs : get_pipeline_outs) (c : PipelineCache)
  : Dev (Z * get_pipeline_outs * PipelineCache) :=
  let (ret0, shader_info) :=
    Gpu.resolve_shader_info gpu spv_data spv_data_size
      (out_shader_info outs) in
  emit (EvResolveShaderInfo ret0) ;;;
  let outs := {| out_shader_module := out_shader_module outs;
                 out_objects := out_objects outs;
                 out_shader_info := shader_info |} in
  if negb (ret0 =? 0) then ret (-1, outs, c)
  else
    shader_module <-
      vk_shader_module (fun t =>
        VulkanDevice.compile_shader_module vkdev t spv_data spv_data_size
          local_size_x local_size_y local_size_z) ;;
    if negb (non_null shader_module) then ret (-1, outs, c)
    else
      '(ret0, objects) <-
        new_pipeline shader_module shader_info specializations
          (out_objects outs) ;;
      if negb (ret0 =? 0) then
        vk_destroy ShaderModule shader_module ;;;
        ret (-1, {| out_shader_module := out_shader_module outs;
                    out_objects := objects;
                    out_shader_info := shader_info |}, c)
      else
        ret (0, {| out_shader_module := shader_module;
                   out_objects := objects;
                   out_shader_info := shader_info |}, c).

(** *** [get_pipeline] by shader type index (lines 191-255) *)

(** The search loop of lines 202-218: the first index, from [i] on, of
    a digest equal to [key]. *)
Fixpoint find_digest (key : pipeline_cache_digest)
    (digests : list pipeline_cache_digest) (i : nat) : option nat :=
  match digests with
  | [] => None
  | d :: rest =>
      if digest_eqb d key then Some i else find_digest key rest (S i)
  end.

(** What [cache_artifacts[i]] is read as past the end of the vector,
    where the source has no defined behaviour. *)
Definition null_artifact : pipeline_cache_artifact :=
  {| shader_module := VK_NULL_HANDLE;
     descriptorset_layout := VK_NULL_HANDLE;
     pipeline_layout := VK_NULL_HANDLE;
     pipeline := VK_NULL_HANDLE;
     descriptor_update_template := VK_NULL_HANDLE;
     shader_info := mkShaderInfo 0 0 0 [] |}.

Definition get_pipeline (shader_type_index : Z) (opt : Option)
    (specializations : specialization_list)
    (local_size_x local_size_y local_size_z : Z)
    (outs : get_pipeline_outs) (c : PipelineCache)
  : Dev (Z * get_pipeline_outs * PipelineCache) :=
  let key := make_digest elem_bits shader_type_index opt specializations
               local_size_x local_size_y local_size_z in
  match find_digest key (cache_digests c) 0 with
  | Some i =>
      let cc := nth i (cache_artifacts c) null_artifact in
      ret (0, {| out_shader_module := shader_module cc;
                 out_objects :=
                   {| out_descriptorset_layout := descriptorset_layout cc;
                      out_pipeline_layout := pipeline_layout cc;
                      out_pipeline := pipeline cc;
                      out_descriptor_update_template :=
                        descriptor_update_template cc |};
                 out_shader_info := shader_info cc |}, c)
  | None =>
      '(ret0, new_module, si) <-
        create_shader_module shader_type_index opt
          local_size_x local_size_y local_size_z
          VK_NULL_HANDLE (out_shader_info outs) ;;
      if negb (ret0 =? 0) then
        ret (-1, {| out_shader_module := out_shader_module outs;
                    out_objects := out_objects outs;
                    out_shader_info := si |}, c)
      else
        '(ret0, objects) <-
          new_pipeline new_module si specializations (out_objects outs) ;;
        if negb (ret0 =? 0) then
          vk_destroy ShaderModule new_module ;;;
          ret (-1, {| out_shader_module := out_shader_module outs;
                      out_objects := objects;
                      out_shader_info := si |}, c)
        else
          let cc :=
            {| shader_module := new_module;
               descriptorset_layout := out_descriptorset_layout objects;
               pipeline_layout := out_pipeline_layout objects;
               pipeline := out_pipeline objects;
               descriptor_update_template :=
                 out_descriptor_update_template objects;
               shader_info := si |} in
          ret (0, {| out_shader_module := new_module;
                     out_objects := objects;
                     out_shader_info := si |},
               {| cache_digests := cache_digests c ++ [key];
                  cache_artifacts := cache_artifacts c ++ [cc] |})
  end.

(** *** The states of the cache *)

(** The caches a program can hold: the constructor's, and what any of
    the three public member functions leaves, whatever the arguments,
    the out parameters and the history of the device. *)
Inductive reachable : PipelineCache -> Prop :=
| reach_new : reachable empty_cache
| reach_get_pipeline :
    forall c shader_type_index opt specializations lx ly lz outs t,
      reachable c ->
      reachable (snd (fst (get_pipeline shader_type_index opt specializations
                             lx ly lz outs c t)))
| reach_get_pipeline_spv :
    forall c spv_data spv_data_size specializations lx ly lz outs t,
      reachable c ->
      reachable (snd (fst (get_pipeline_spv spv_data spv_data_size
                             specializations lx ly lz outs c t)))
| reach_clear :
    forall c t, reachable c -> reachable (fst (clear c t)).

(** The build of a miss fails: [create_shader_module] returns non-zero,
    or [new_pipeline], called on what it produced, does. *)
Definition build_fails (shader_type_index : Z) (opt : Option)
    (specializations : specialization_list) (lx ly lz : Z)
    (outs : get_pipeline_outs) (t : trace) : Prop :=
  let '(ret0, new_module, si, t1) :=
    create_shader_module shader_type_index opt lx ly lz
      VK_NULL_HANDLE (out_shader_info outs) t in
  ret0 <> 0 \/
  fst (fst (new_pipeline new_module si specializations
              (out_objects outs) t1)) <> 0.

End Members.

(** ** The words of the specification *)

(** The decision table of variant selection as the specification lists
    it: nine rules in order, each a condition on the device and on the
    request with the offset of its variant; the first rule whose
    condition holds gives the offset, and 0 (fp32) is the fallback. *)
Module DecisionTable.

Definition image (i : GpuInfo) (o : Option) : bool :=
  negb (bug_layout_binding_id_alias i) && use_image_storage o.
Definition fp16s (i : GpuInfo) (o : Option) : bool :=
  support_fp16_storage i && use_fp16_storage o.
Definition fp16p (i : GpuInfo) (o : Option) : bool :=
  support_fp16_packed i && use_fp16_packed o.
Definition fp16a (i : GpuInfo) (o : Option) : bool :=
  support_fp16_arithmetic i && use_fp16_arithmetic o.

Definition rule : Type := (GpuInfo -> Option -> bool) * Z.

Definition rules : list rule :=
  [ (fun i o => image i o && fp16s i o && fp16a i o, 9);
    (fun i o => image i o && fp16p i o && fp16a i o, 7);
    (fun i o => image i o && fp16s i o, 8);
    (fun i o => image i o && fp16p i o, 6);
    (fun i o => image i o, 5);
    (fun i o => fp16s i o && fp16a i o, 4);
    (fun i o => fp16p i o && fp16a i o, 2);
    (fun i o => fp16s i o, 3);
    (fun i o => fp16p i o, 1) ].

Fixpoint first_match (rs : list rule) (i : GpuInfo) (o : Option) : Z :=
  match rs with
  | [] => 0
  | (condition, offset) :: rest =>
      if condition i o then offset else first_match rest i o
  end.

Definition variant_offset (i : GpuInfo) (o : Option) : Z :=
  first_match rules i o.

End DecisionTable.

(** *** Accounting on a trace *)

(** The non-null handles the creations of a trace returned, in order. *)
Definition created_handles (es : trace) : list (resource * VkHandle) :=
  flat_map (fun e =>
    match e with
    | EvCreate r (Some h) => if non_null h then [(r, h)] else []
    | _ => []
    end) es.

(** The handles a trace destroyed, in order. *)
Definition destroyed_handles (es : trace) : list (resource * VkHandle) :=
  flat_map (fun e =>
    match e with
    | EvDestroy r h => [(r, h)]
    | _ => []
    end) es.

(** The events of a run of successful creations. *)
Definition creation_events (cs : list (resource * VkHandle)) : trace :=
  map (fun c => EvCreate (fst c) (Some (snd c))) cs.

(** The unwinding of the creations [cs]: the non-null handles, last
    created first. *)
Definition rollback_events (cs : list (resource * VkHandle)) : trace :=
  map (fun c => EvDestroy (fst c) (snd c))
      (rev (filter (fun c => non_null (snd c)) cs)).

(** The order in which [new_pipeline] creates its objects. *)
Definition creation_order : list resource :=
  [DescriptorSetLayout; PipelineLayout; Pipeline; DescriptorUpdateTemplate].

(** The destructions [clear] owes to one artifact: its non-null handles
    in the order update template, pipeline, pipeline layout,
    descriptor-set layout, shader module. *)
Definition artifact_teardown (cc : pipeline_cache_artifact) : trace :=
  map (fun c => EvDestroy (fst c) (snd c))
      (filter (fun c => non_null (snd c))
         [ (DescriptorUpdateTemplate, descriptor_update_template cc);
           (Pipeline, pipeline cc);
           (PipelineLayout, pipeline_layout cc);
           (DescriptorSetLayout, descriptorset_layout cc);
           (ShaderModule, shader_module cc) ]).

(** The out parameters of [get_pipeline] holding the artifact [cc]. *)
Definition outs_of_artifact (cc : pipeline_cache_artifact)
  : get_pipeline_outs :=
  {| out_shader_module := shader_module cc;
     out_objects :=
       {| out_descriptorset_layout := descriptorset_layout cc;
          out_pipeline_layout := pipeline_layout cc;
          out_pipeline := pipeline cc;
          out_descriptor_update_template := descriptor_update_template cc |};
     out_shader_info := shader_info cc |}.

(** The two vectors have the same length. *)
Definition same_length (c : PipelineCache) : Prop :=
  length (cache_digests c) = length (cache_artifacts c).

(** The artifact the miss path of [get_pipeline] stores for the module
    [sm], the objects [objects] and the shader info [si]. *)
Definition built_artifact (sm : VkHandle) (objects : new_pipeline_outs)
    (si : ShaderInfo) : pipeline_cache_artifact :=
  {| shader_module := sm;
     descriptorset_layout := out_descriptorset_layout objects;
     pipeline_layout := out_pipeline_layout objects;
     pipeline := out_pipeline objects;
     descriptor_update_template := out_descriptor_update_template objects;
     shader_info := si |}.

(** An artifact of a device without update templates holds none. *)
Definition artifact_ok (vkdev : VulkanDevice.t)
    (cc : pipeline_cache_artifact) : Prop :=
  support_VK_KHR_descriptor_update_template (VulkanDevice.info vkdev) = false
  -> descriptor_update_template cc = VK_NULL_HANDLE.

(** What every cache of a program satisfies. *)
Definition cache_inv (vkdev : VulkanDevice.t) (c : PipelineCache) : Prop :=
  same_length c /\ Forall (artifact_ok vkdev) (cache_artifacts c).

(** [j] is the first index of [digests] that holds a digest equal to
    [key]. *)
Definition first_hit (key : pipeline_cache_digest)
    (digests : list pipeline_cache_digest) (j : nat) : Prop :=
  (exists d, nth_error digests j = Some d /\ digest_eqb d key = true)
  /\ forall (k : nat) (d : pipeline_cache_digest),
       (k < j)%nat -> nth_error digests k = Some d ->
       digest_eqb d key = false.

(** What a failing run of [new_pipeline] leaves on the trace: the
    creations [cs] that succeeded, the creation of [r] that failed, and
    the unwinding of [cs]. *)
Definition failed_run (cs : list (resource * VkHandle)) (r : resource)
  : trace :=
  creation_events cs ++ [EvCreate r None] ++ rollback_events cs.

(** ** A device to run the functions on *)

Module Scenario.

(** a handle no earlier call returned *)
Definition fresh (t : trace) : VkHandle := Z.of_nat (length t) + 100.

Definition the_shader_info : ShaderInfo :=
  {| specialization_count := 1;
     binding_count := 2;
     push_constant_count := 0;
     binding_types := [1; 1] |}.

Definition the_gpu : Gpu.t :=
  {| Gpu.compile_spirv_module := fun idx _ => (0, [idx]);
     Gpu.resolve_shader_info := fun _ _ _ => (0, the_shader_info);
     Gpu.get_shader_info := fun _ => the_shader_info |}.

(** A device on which the creation of the resources [fails] selects
    fails and every other one returns a fresh handle; the handle of a
    precompiled shader shows its index in the thousands. *)
Definition device (gpu_info : GpuInfo) (fails : resource -> bool)
  : VulkanDevice.t :=
  let answer r t := if fails r then None else Some (fresh t) in
  let module t idx :=
    if fails ShaderModule then VK_NULL_HANDLE else 1000 * idx + fresh t in
  {| VulkanDevice.info := gpu_info;
     VulkanDevice.compile_shader_module := fun t _ _ _ _ _ => module t 0;
     VulkanDevice.create_shader_module := fun t idx _ _ _ => module t idx;
     VulkanDevice.create_descriptorset_layout :=
       fun t _ _ => answer DescriptorSetLayout t;
     VulkanDevice.create_pipeline_layout :=
       fun t _ _ => answer PipelineLayout t;
     VulkanDevice.create_pipeline :=
       fun t _ _ _ => answer Pipeline t;
     VulkanDevice.create_descriptor_update_template :=
       fun t _ _ _ _ => answer DescriptorUpdateTemplate t |}.

(** all capabilities, no erratum *)
Definition full_info : GpuInfo :=
  {| bug_layout_binding_id_alias := false;
     support_fp16_packed := true;
     support_fp16_storage := true;
     support_fp16_arithmetic := true;
     support_VK_KHR_descriptor_update_template := true |}.

Definition never : resource -> bool := fun _ => false.

Definition only (r : resource) : resource -> bool :=
  fun r' =>
    match r, r' with
    | ShaderModule, ShaderModule
    | DescriptorSetLayout, DescriptorSetLayout
    | PipelineLayout, PipelineLayout
    | Pipeline, Pipeline
    | DescriptorUpdateTemplate, DescriptorUpdateTemplate => true
    | _, _ => false
    end.

(** image storage with fp16 storage and arithmetic *)
Definition image_fp16sa : Option :=
  {| use_image_storage := true;
     use_fp16_packed := false;
     use_fp16_storage := true;
     use_fp16_arithmetic := true;
     use_int8_storage := false;
     use_int8_arithmetic := false |}.

Definition no_outs : get_pipeline_outs :=
  {| out_shader_module := VK_NULL_HANDLE;
     out_objects := mkObjects 0 0 0 0;
     out_shader_info := mkShaderInfo 0 0 0 [] |}.

(** the same request with [use_int8_storage] *)
Definition image_fp16sa_int8 : Option :=
  {| use_image_storage := true;
     use_fp16_packed := false;
     use_fp16_storage := true;
     use_fp16_arithmetic := true;
     use_int8_storage := true;
     use_int8_arithmetic := false |}.

(** The request of kernel 3 with local size (8, 8, 1) and one
    specialization constant, on precompiled shaders and one-byte
    elements of the digest. *)
Definition request (vkdev : VulkanDevice.t) (opt : Option)
  : get_pipeline_outs -> PipelineCache
    -> Dev (Z * get_pipeline_outs * PipelineCache) :=
  get_pipeline false 8 the_gpu vkdev 3 opt [5] 8 8 1.

Definition good_device : VulkanDevice.t := device full_info never.

(** the cache after the first request on the good device *)
Definition cache1 : PipelineCache :=
  snd (fst (request good_device image_fp16sa no_outs empty_cache [])).

(** the digest of the request of the scenario *)
Definition the_key : pipeline_cache_digest :=
  make_digest 8 3 image_fp16sa [5] 8 8 1.

Definition first_artifact : pipeline_cache_artifact :=
  mkArtifact 1 2 3 4 5 the_shader_info.

Definition second_artifact : pipeline_cache_artifact :=
  mkArtifact 11 12 13 14 15 the_shader_info.

(** A store that holds the digest of the request twice, with two
    different artifacts. *)
Definition twice : PipelineCache :=
  mkCache [the_key; the_key] [first_artifact; second_artifact].

End Scenario.

(** the last six lines of [murmur3_32], from the state after the loop *)
Definition murmur3_tail (h size : Z) : Z :=
  let h := Z.lxor h (u32 (size * 4)) in
  let h := Z.lxor h (Z.shiftr h 16) in
  let h := mul32 h 0x85ebca6b in
  let h := Z.lxor h (Z.shiftr h 13) in
  let h := mul32 h 0xc2b2ae35 in
  Z.lxor h (Z.shiftr h 16).

(** The non-null handles of an artifact, in the order of their
    creation. *)
Definition owned_handles (cc : pipeline_cache_artifact)
  : list (resource * VkHandle) :=
  filter (fun c => non_null (snd c))
    [ (ShaderModule, shader_module cc);
      (DescriptorSetLayout, descriptorset_layout cc);
      (PipelineLayout, pipeline_layout cc);
      (Pipeline, pipeline cc);
      (DescriptorUpdateTemplate, descriptor_update_template cc) ].

(** The handles a cache holds. *)
Definition cache_handles (c : PipelineCache) : list (resource * VkHandle) :=
  flat_map owned_handles (cache_artifacts c).

(** the resource an event creates or destroys *)
Definition event_resource (e : event) : option resource :=
  match e with
  | EvCreate r _ => Some r
  | EvDestroy r _ => Some r
  | _ => None
  end.

(** The destructor (lines 94-97) calls [clear]. *)
Definition PipelineCache_destructor (vkdev : VulkanDevice.t)
    (c : PipelineCache) : Dev PipelineCache :=
  clear vkdev c.

(** The arguments of one call of [get_pipeline] by shader type index. *)
Record request : Type := mkRequest {
  rq_shader_type_index : Z;
  rq_opt : Option;
  rq_specializations : specialization_list;
  rq_local_size_x : Z;
  rq_local_size_y : Z;
  rq_local_size_z : Z;
  rq_outs : get_pipeline_outs
}.

Section Lifetime.

Variable NCNN_VULKAN_ONLINE_SPIRV : bool.
Variable elem_bits : Z.
Variable gpu : Gpu.t.
Variable vkdev : VulkanDevice.t.

Definition serve (rq : request) (c : PipelineCache)
  : Dev (Z * get_pipeline_outs * PipelineCache) :=
  get_pipeline NCNN_VULKAN_ONLINE_SPIRV elem_bits gpu vkdev
    (rq_shader_type_index rq) (rq_opt rq) (rq_specializations rq)
    (rq_local_size_x rq) (rq_local_size_y rq) (rq_local_size_z rq)
    (rq_outs rq) c.

(** A caller that makes the requests [rqs] one after the other. *)
Fixpoint serve_all (rqs : list request) (c : PipelineCache)
  : Dev PipelineCache :=
  match rqs with
  | [] => ret c
  | rq :: rest =>
      '(_, _, c') <- serve rq c ;;
      serve_all rest c'
  end.

(** The life of a cache: constructed, asked [rqs], destructed. *)
Definition cache_lifetime (rqs : list request) : Dev PipelineCache :=
  c <- serve_all rqs empty_cache ;;
  PipelineCache_destructor vkdev c.

End Lifetime.
(** What was created and not destroyed is what the cache holds. *)
Definition balanced (c : PipelineCache) (t : trace) : Prop :=
  Permutation (created_handles t) (destroyed_handles t ++ cache_handles c).

(** No digest of the list is equal to a later one. *)
Definition distinct_digests (digests : list pipeline_cache_digest) : Prop :=
  forall (i j : nat) (di dj : pipeline_cache_digest),
    (i < j)%nat ->
    nth_error digests i = Some di -> nth_error digests j = Some dj ->
    digest_eqb di dj = false.

(** ** Bit-exactness of the hashes *)

Section HashFacts.

Lemma u32_range (x : Z) : 0 <= u32 x < 2 ^ 32.
Proof. unfold u32, modulus. apply Z.mod_pos_bound. lia. Qed.

Lemma testbit_high_u32 (x i : Z) :
  0 <= x < 2 ^ 32 -> 32 <= i -> Z.testbit x i = false.
Proof.
  intros Hx Hi.
  rewrite <- (Z.mod_small x (2 ^ 32)) by exact Hx.
  apply Z.mod_pow2_bits_high. lia.
Qed.

(** The two halves of a rotation share no bit. *)
Lemma rot_halves_disjoint (x r : Z) :
  0 <= x < 2 ^ 32 -> 0 < r < 32 ->
  Z.land ((x * 2 ^ r) mod 2 ^ 32) (x / 2 ^ (32 - r)) = 0.
Proof.
  intros Hx Hr.
  apply Z.bits_inj'. intros i Hi.
  rewrite Z.land_spec, Z.bits_0.
  destruct (Z.ltb_spec i r) as [Hlt | Hge].
  - destruct (Z.ltb_spec i 32) as [H32 | H32]; [| lia].
    rewrite Z.mod_pow2_bits_low by lia.
    rewrite Z.mul_pow2_bits_low by lia.
    reflexivity.
  - rewrite Z.div_pow2_bits by lia.
    rewrite (testbit_high_u32 x (i + (32 - r))) by lia.
    apply andb_false_r.
Qed.

Lemma rot_lor_is_rotl32 (x r : Z) :
  0 <= x < 2 ^ 32 -> 0 < r < 32 ->
  Z.lor (shl32 x r) (Z.shiftr x (32 - r)) = Reference.rotl32 x r.
Proof.
  intros Hx Hr.
  unfold shl32, u32, modulus, Reference.rotl32.
  rewrite Z.shiftl_mul_pow2 by lia.
  rewrite Z.shiftr_div_pow2 by lia.
  rewrite <- Z.lxor_lor by (apply rot_halves_disjoint; assumption).
  symmetry. apply Z.add_nocarry_lxor.
  apply rot_halves_disjoint; assumption.
Qed.

Lemma lxor_u32_range (a b : Z) :
  0 <= a < 2 ^ 32 -> 0 <= b < 2 ^ 32 -> 0 <= Z.lxor a b < 2 ^ 32.
Proof.
  intros Ha Hb.
  assert (Hnn : 0 <= Z.lxor a b) by (apply Z.lxor_nonneg; lia).
  split; [exact Hnn |].
  destruct (Z.eq_dec (Z.lxor a b) 0) as [E | NE]; [rewrite E; lia |].
  apply Z.log2_lt_pow2; [lia |].
  eapply Z.le_lt_trans; [apply Z.log2_lxor; lia |].
  apply Z.max_lub_lt.
  - destruct (Z.eq_dec a 0) as [-> | ?]; [simpl; lia |].
    apply Z.log2_lt_pow2; lia.
  - destruct (Z.eq_dec b 0) as [-> | ?]; [simpl; lia |].
    apply Z.log2_lt_pow2; lia.
Qed.

Lemma murmur3_round_ref (h k : Z) :
  0 <= h < 2 ^ 32 ->
  murmur3_round h k = Reference.murmur3_mix h k.
Proof.
  intros Hh.
  unfold murmur3_round, Reference.murmur3_mix, Reference.murmur3_scramble.
  rewrite (rot_lor_is_rotl32 (mul32 k 0xcc9e2d51) 15)
    by (first [apply u32_range | lia]).
  rewrite rot_lor_is_rotl32.
  - unfold add32, mul32, u32, modulus, Reference.c1, Reference.c2.
    rewrite Z.add_mod_idemp_l by lia. reflexivity.
  - apply lxor_u32_range; [exact Hh | apply u32_range].
  - lia.
Qed.

Lemma murmur3_round_range (h k : Z) : 0 <= murmur3_round h k < 2 ^ 32.
Proof. unfold murmur3_round, add32. apply u32_range. Qed.

Lemma murmur3_loop_ref (data : list Z) :
  forall h, 0 <= h < 2 ^ 32 ->
    murmur3_loop data h = fold_left Reference.murmur3_mix data h.
Proof.
  induction data as [| k rest IH]; intros h Hh; simpl.
  - reflexivity.
  - rewrite <- murmur3_round_ref by exact Hh.
    apply IH, murmur3_round_range.
Qed.

Lemma fnv1a_loop_ref (data : list Z) :
  forall h,
    fnv1a_loop data h =
    fold_left (fun h b => (Z.lxor h b * Reference.fnv_prime) mod 2 ^ 32)
              data h.
Proof.
  induction data as [| b rest IH]; intros h; simpl; [reflexivity |].
  rewrite IH. reflexivity.
Qed.

Lemma firstn_length_all {A} (l : list A) :
  firstn (Z.to_nat (Z.of_nat (length l))) l = l.
Proof. rewrite Nat2Z.id. apply firstn_all. Qed.

End HashFacts.

(** C5.  The hashes agree with their published algorithms on every input:
    [fnv1a_32] is 32-bit FNV-1a (offset basis 0x811c9dc5, prime
    0x01000193, byte after byte), [murmur3_32] is Murmur3-32 with seed 0
    over whole words (constants 0xcc9e2d51 and 0x1b873593, rotations by
    15 and 13, the 5*h+0xe6546b64 step, the xor with the byte length
    4*size and the finalizer), all modulo 2^32; the published check
    values of both are reproduced. *)
Theorem hashes_match_reference :
  (forall words : list Z,
      murmur3_32 words (Z.of_nat (length words)) =
      Reference.murmur3_words 0 words) /\
  (forall bytes : list Z,
      fnv1a_32 bytes (Z.of_nat (length bytes)) = Reference.fnv1a bytes) /\
  murmur3_32 [] 0 = 0 /\
  murmur3_32 [0] 1 = 0x2362f9de /\
  murmur3_32 [0x74736574] 1 = 0xba6bd213 /\
  fnv1a_32 [] 0 = 0x811c9dc5 /\
  fnv1a_32 [102; 111; 111; 98; 97; 114] 6 = 0xbf9cf968.
Proof.
  split; [| split; [| repeat split; vm_compute; reflexivity]].
  - intros words.
    unfold murmur3_32, Reference.murmur3_words, Reference.fmix32.
    rewrite firstn_length_all.
    rewrite murmur3_loop_ref by lia.
    unfold mul32, u32, modulus.
    rewrite !Z.shiftr_div_pow2 by lia.
    rewrite (Z.mul_comm (Z.of_nat (length words)) 4).
    reflexivity.
  - intros bytes.
    unfold fnv1a_32, Reference.fnv1a.
    rewrite firstn_length_all.
    apply fnv1a_loop_ref.
Qed.

(** ** Variant selection *)

Section VariantSelection.

Variable i : GpuInfo.
Variable opt : Option.

Lemma variant_offset_erratum :
  bug_layout_binding_id_alias i = true ->
  0 <= DecisionTable.variant_offset i opt <= 4.
Proof.
  intros Hbug.
  unfold DecisionTable.variant_offset, DecisionTable.rules,
    DecisionTable.first_match, DecisionTable.image.
  rewrite Hbug. cbn [negb andb].
  destruct (DecisionTable.fp16s i opt), (DecisionTable.fp16p i opt),
    (DecisionTable.fp16a i opt); cbn [andb]; lia.
Qed.

Lemma variant_offset_rule1 :
  DecisionTable.image i opt && DecisionTable.fp16s i opt
    && DecisionTable.fp16a i opt = true ->
  DecisionTable.variant_offset i opt = 9.
Proof.
  intros H.
  unfold DecisionTable.variant_offset, DecisionTable.rules,
    DecisionTable.first_match.
  rewrite H. reflexivity.
Qed.

End VariantSelection.

Lemma select_shader_type_index_table (vkdev : VulkanDevice.t)
    (opt : Option) (idx : Z) :
  select_shader_type_index vkdev opt idx
  = idx + DecisionTable.variant_offset (VulkanDevice.info vkdev) opt.
Proof.
  unfold select_shader_type_index, DecisionTable.variant_offset,
    DecisionTable.rules, DecisionTable.first_match,
    DecisionTable.image, DecisionTable.fp16s, DecisionTable.fp16p,
    DecisionTable.fp16a.
  destruct (VulkanDevice.info vkdev) as [bug fp16p fp16s fp16a dut].
  cbn [bug_layout_binding_id_alias support_fp16_packed
       support_fp16_storage support_fp16_arithmetic].
  destruct bug, fp16p, fp16s, fp16a,
    (use_image_storage opt), (use_fp16_storage opt),
    (use_fp16_arithmetic opt), (use_fp16_packed opt);
    cbn [negb andb]; lia.
Qed.

(** C1.  In the build on precompiled shaders, [create_shader_module]
    asks the device for the shader whose index is the base index plus the
    offset of the first rule of the decision table that holds (+9, +7,
    +8, +6, +5, +4, +2, +3, +1 in the order of the table, +0 when none
    holds), and takes the [ShaderInfo] of that index.  With the
    layout-binding-alias erratum the offset is never one of +5..+9; a
    request on which rule 1 holds gets +9, also when rule 6 holds on it. *)
Theorem create_shader_module_decision_table :
  forall (gpu : Gpu.t) (vkdev : VulkanDevice.t) (idx : Z) (opt : Option)
         (lx ly lz : Z) (sm : VkHandle) (si : ShaderInfo) (t : trace),
    let info := VulkanDevice.info vkdev in
    let variant := idx + DecisionTable.variant_offset info opt in
    let h := VulkanDevice.create_shader_module vkdev t variant lx ly lz in
    create_shader_module false gpu vkdev idx opt lx ly lz sm si t
    = ((if non_null h then 0 else -1,
        if non_null h then h else sm,
        Gpu.get_shader_info gpu variant),
       t ++ [EvCreate ShaderModule (if non_null h then Some h else None)])
    /\ select_shader_type_index vkdev opt idx = variant
    /\ (bug_layout_binding_id_alias info = true ->
        0 <= DecisionTable.variant_offset info opt <= 4)
    /\ (DecisionTable.image info opt && DecisionTable.fp16s info opt
          && DecisionTable.fp16a info opt = true ->
        DecisionTable.variant_offset info opt = 9
        /\ select_shader_type_index vkdev opt idx = idx + 9).
Proof.
  intros gpu vkdev idx opt lx ly lz sm si t info variant h.
  assert (Hsel : select_shader_type_index vkdev opt idx = variant)
    by apply select_shader_type_index_table.
  split; [| split; [exact Hsel | split]].
  - unfold create_shader_module, create_shader_module_finish,
      vk_shader_module, bind, ask, emit, ret.
    rewrite Hsel. fold h.
    destruct (non_null h); reflexivity.
  - apply variant_offset_erratum.
  - intros H1. split.
    + apply variant_offset_rule1; exact H1.
    + rewrite Hsel. unfold variant.
      rewrite (variant_offset_rule1 info opt H1). reflexivity.
Qed.

(** ** [new_pipeline] *)

(** bring a trace to the form [t ++ events] *)
Ltac trace_norm := repeat rewrite <- app_assoc; cbn [app].

Section NewPipeline.

Variable vkdev : VulkanDevice.t.

(** The unwinding from three locals, the update template being null. *)
Lemma new_pipeline_ERROR_run (dsl pl p : VkHandle) (t : trace) :
  new_pipeline_ERROR vkdev dsl pl p VK_NULL_HANDLE t
  = (-1, t ++ rollback_events [ (DescriptorSetLayout, dsl);
                                (PipelineLayout, pl);
                                (Pipeline, p) ]).
Proof.
  unfold new_pipeline_ERROR, vk_destroy, when, bind, emit, ret.
  unfold rollback_events.
  change (non_null VK_NULL_HANDLE) with false.
  cbn [filter snd fst].
  destruct (support_VK_KHR_descriptor_update_template
              (VulkanDevice.info vkdev));
    destruct (non_null p), (non_null pl), (non_null dsl);
    cbn [rev app map fst snd]; trace_norm; rewrite ?app_nil_r; reflexivity.
Qed.

(** [new_pipeline], step by step: which primitive is asked on which
    history, and what each outcome leaves. *)
Lemma new_pipeline_run (sm : VkHandle) (si : ShaderInfo)
    (specs : specialization_list) (outs : new_pipeline_outs) (t : trace) :
  new_pipeline vkdev sm si specs outs t =
  if negb (to_int (Z.of_nat (length specs)) =? specialization_count si)
  then ((-1, outs), t)
  else
    match VulkanDevice.create_descriptorset_layout vkdev t
            (binding_count si) (binding_types si) with
    | None => ((-1, outs), t ++ failed_run [] DescriptorSetLayout)
    | Some dsl =>
    let c1 := [(DescriptorSetLayout, dsl)] in
    match VulkanDevice.create_pipeline_layout vkdev (t ++ creation_events c1)
            (push_constant_count si) dsl with
    | None => ((-1, outs), t ++ failed_run c1 PipelineLayout)
    | Some pl =>
    let c2 := c1 ++ [(PipelineLayout, pl)] in
    match VulkanDevice.create_pipeline vkdev (t ++ creation_events c2)
            sm pl specs with
    | None => ((-1, outs), t ++ failed_run c2 Pipeline)
    | Some p =>
    let c3 := c2 ++ [(Pipeline, p)] in
    if support_VK_KHR_descriptor_update_template (VulkanDevice.info vkdev)
    then
      match VulkanDevice.create_descriptor_update_template vkdev
              (t ++ creation_events c3)
              (binding_count si) (binding_types si) dsl pl with
      | None => ((-1, outs), t ++ failed_run c3 DescriptorUpdateTemplate)
      | Some dut =>
          ((0, mkObjects dsl pl p dut),
           t ++ creation_events (c3 ++ [(DescriptorUpdateTemplate, dut)]))
      end
    else ((0, mkObjects dsl pl p VK_NULL_HANDLE), t ++ creation_events c3)
    end end end.
Proof.
  unfold new_pipeline.
  destruct (negb (to_int (Z.of_nat (length specs))
                  =? specialization_count si)).
  - unfold bind, ret. rewrite new_pipeline_ERROR_run.
    unfold rollback_events. cbn. rewrite app_nil_r. reflexivity.
  - unfold vk_create, bind, ask, emit, ret.
    cbn [creation_events map app fst snd].
    destruct (VulkanDevice.create_descriptorset_layout vkdev t _ _)
      as [dsl |].
    2:{ rewrite new_pipeline_ERROR_run.
        unfold failed_run, rollback_events. cbn. trace_norm. reflexivity. }
    destruct (VulkanDevice.create_pipeline_layout vkdev _ _ _) as [pl |].
    2:{ rewrite new_pipeline_ERROR_run.
        unfold failed_run, rollback_events. cbn. trace_norm.
        destruct (non_null dsl); cbn; trace_norm; reflexivity. }
    trace_norm.
    destruct (VulkanDevice.create_pipeline vkdev _ _ _) as [p |].
    2:{ rewrite new_pipeline_ERROR_run.
        unfold failed_run, rollback_events. cbn. trace_norm.
        destruct (non_null dsl), (non_null pl);
          cbn; trace_norm; reflexivity. }
    trace_norm.
    destruct (support_VK_KHR_descriptor_update_template
                (VulkanDevice.info vkdev)); [| reflexivity].
    destruct (VulkanDevice.create_descriptor_update_template vkdev _ _ _)
      as [dut |].
    2:{ rewrite new_pipeline_ERROR_run.
        unfold failed_run, rollback_events. cbn. trace_norm.
        destruct (non_null dsl), (non_null pl), (non_null p);
          cbn; trace_norm; reflexivity. }
    trace_norm. reflexivity.
Qed.

End NewPipeline.

Lemma to_int_small (n : Z) : 0 <= n <= INT_MAX -> to_int n = n.
Proof.
  unfold to_int, INT_MAX, modulus. intros H.
  rewrite Z.mod_small by lia.
  destruct (Z.ltb_spec n (2 ^ 31)); lia.
Qed.

Lemma app_eq_self {A} (t es : list A) : t = t ++ es -> es = [].
Proof.
  intros H. apply (app_inv_head t). rewrite app_nil_r. symmetry. exact H.
Qed.

(** C6.  When the number of specialization values (a number an [int]
    holds) differs from the [specialization_count] of the shader,
    [new_pipeline] returns -1 and the trace is the one it started from:
    no creation primitive was called and nothing was destroyed; the out
    parameters are untouched. *)
Theorem new_pipeline_count_mismatch :
  forall (vkdev : VulkanDevice.t) (sm : VkHandle) (si : ShaderInfo)
         (specs : specialization_list) (outs : new_pipeline_outs) (t : trace),
    Z.of_nat (length specs) <= INT_MAX ->
    Z.of_nat (length specs) <> specialization_count si ->
    new_pipeline vkdev sm si specs outs t = ((-1, outs), t).
Proof.
  intros vkdev sm si specs outs t Hfit Hne.
  rewrite new_pipeline_run.
  rewrite to_int_small by lia.
  destruct (Z.eqb_spec (Z.of_nat (length specs)) (specialization_count si));
    [contradiction | reflexivity].
Qed.

(** read the result, the out parameters and the events off a run *)
Ltac leaf H :=
  let Hr := fresh "Hr" in let Ho := fresh "Ho" in let Ht := fresh "Ht" in
  injection H as Hr Ho Ht; apply app_inv_head in Ht; subst.

(** C2.  When one of the creations of [new_pipeline] fails, the function
    returns -1 and leaves the out parameters as they were; its events
    are the creations that succeeded, in the order descriptor-set
    layout, pipeline layout, pipeline, update template, then the failed
    one, then the destruction of each non-null handle created, last
    created first: the handles destroyed are the handles created, in
    reverse, each once. *)
Theorem new_pipeline_rollback :
  forall (vkdev : VulkanDevice.t) (sm : VkHandle) (si : ShaderInfo)
         (specs : specialization_list) (outs outs' : new_pipeline_outs)
         (t es : trace) (r : Z),
    new_pipeline vkdev sm si specs outs t = ((r, outs'), t ++ es) ->
    (exists k, In (EvCreate k None) es) ->
    r = -1 /\ outs' = outs /\
    exists (cs : list (resource * VkHandle)) (k : resource)
           (later : list resource),
      es = failed_run cs k
      /\ map fst cs ++ k :: later = creation_order
      /\ destroyed_handles es = rev (created_handles es).
Proof.
  intros vkdev sm si specs outs outs' t es r Hrun [k Hk].
  rewrite new_pipeline_run in Hrun.
  destruct (negb _) in Hrun.
  { injection Hrun as Hr Ho Ht. apply app_eq_self in Ht. subst. destruct Hk. }
  destruct (VulkanDevice.create_descriptorset_layout vkdev t _ _) as [dsl |].
  2:{ leaf Hrun. repeat split.
      exists [], DescriptorSetLayout,
        [PipelineLayout; Pipeline; DescriptorUpdateTemplate].
      repeat split. }
  cbv zeta in Hrun.
  destruct (VulkanDevice.create_pipeline_layout vkdev _ _ _) as [pl |].
  2:{ leaf Hrun. repeat split.
      exists [(DescriptorSetLayout, dsl)], PipelineLayout,
        [Pipeline; DescriptorUpdateTemplate].
      repeat split.
      unfold failed_run, rollback_events, destroyed_handles, created_handles.
      cbn. destruct (non_null dsl); reflexivity. }
  destruct (VulkanDevice.create_pipeline vkdev _ _ _) as [p |].
  2:{ leaf Hrun. repeat split.
      exists [(DescriptorSetLayout, dsl); (PipelineLayout, pl)], Pipeline,
        [DescriptorUpdateTemplate].
      repeat split.
      unfold failed_run, rollback_events, destroyed_handles, created_handles.
      cbn. destruct (non_null dsl), (non_null pl); reflexivity. }
  destruct (support_VK_KHR_descriptor_update_template _).
  2:{ leaf Hrun. cbn in Hk. intuition discriminate. }
  destruct (VulkanDevice.create_descriptor_update_template vkdev _ _ _)
    as [dut |].
  { leaf Hrun. cbn in Hk. intuition discriminate. }
  leaf Hrun. repeat split.
  exists [(DescriptorSetLayout, dsl); (PipelineLayout, pl); (Pipeline, p)],
    DescriptorUpdateTemplate, [].
  repeat split.
  unfold failed_run, rollback_events, destroyed_handles, created_handles.
  cbn. destruct (non_null dsl), (non_null pl), (non_null p); reflexivity.
Qed.

Lemma new_pipeline_count_mismatch_witness :
  new_pipeline (Scenario.device Scenario.full_info Scenario.never)
    7 Scenario.the_shader_info [] (mkObjects 1 2 3 4) []
  = ((-1, mkObjects 1 2 3 4), []).
Proof.
  apply new_pipeline_count_mismatch.
  - unfold INT_MAX. simpl. lia.
  - simpl. lia.
Defined.

Lemma new_pipeline_rollback_witness :
  let es := [ EvCreate DescriptorSetLayout (Some 100);
              EvCreate PipelineLayout (Some 101);
              EvCreate Pipeline None;
              EvDestroy PipelineLayout 101;
              EvDestroy DescriptorSetLayout 100 ] in
  -1 = -1 /\ mkObjects 1 2 3 4 = mkObjects 1 2 3 4 /\
  exists (cs : list (resource * VkHandle)) (k : resource)
         (later : list resource),
    es = failed_run cs k
    /\ map fst cs ++ k :: later = creation_order
    /\ destroyed_handles es = rev (created_handles es).
Proof.
  apply (new_pipeline_rollback
           (Scenario.device Scenario.full_info (Scenario.only Pipeline))
           7 Scenario.the_shader_info [5] (mkObjects 1 2 3 4)
           (mkObjects 1 2 3 4) []).
  - vm_compute. reflexivity.
  - exists Pipeline. simpl. auto.
Defined.

(** The four steps made to fail in turn, on a device with the update
    template: what [new_pipeline] returns and the events it leaves. *)
Example new_pipeline_fails_at_each_step :
  let run r :=
    new_pipeline (Scenario.device Scenario.full_info (Scenario.only r))
      7 Scenario.the_shader_info [5] (mkObjects 1 2 3 4) [] in
  run DescriptorSetLayout
  = ((-1, mkObjects 1 2 3 4), [EvCreate DescriptorSetLayout None])
  /\ run PipelineLayout
  = ((-1, mkObjects 1 2 3 4),
     [ EvCreate DescriptorSetLayout (Some 100);
       EvCreate PipelineLayout None;
       EvDestroy DescriptorSetLayout 100 ])
  /\ run Pipeline
  = ((-1, mkObjects 1 2 3 4),
     [ EvCreate DescriptorSetLayout (Some 100);
       EvCreate PipelineLayout (Some 101);
       EvCreate Pipeline None;
       EvDestroy PipelineLayout 101;
       EvDestroy DescriptorSetLayout 100 ])
  /\ run DescriptorUpdateTemplate
  = ((-1, mkObjects 1 2 3 4),
     [ EvCreate DescriptorSetLayout (Some 100);
       EvCreate PipelineLayout (Some 101);
       EvCreate Pipeline (Some 102);
       EvCreate DescriptorUpdateTemplate None;
       EvDestroy Pipeline 102;
       EvDestroy PipelineLayout 101;
       EvDestroy DescriptorSetLayout 100 ])
  /\ run ShaderModule
  = ((0, mkObjects 100 101 102 103),
     [ EvCreate DescriptorSetLayout (Some 100);
       EvCreate PipelineLayout (Some 101);
       EvCreate Pipeline (Some 102);
       EvCreate DescriptorUpdateTemplate (Some 103) ]).
Proof. repeat split. Qed.

Lemma outs_of_built_artifact (sm : VkHandle) (objects : new_pipeline_outs)
    (si : ShaderInfo) :
  outs_of_artifact (built_artifact sm objects si) = mkOuts sm objects si.
Proof. destruct objects. reflexivity. Qed.

(** ** What the calls leave on the trace *)

Section Runs.

Variable NCNN_VULKAN_ONLINE_SPIRV : bool.
Variable elem_bits : Z.
Variable gpu : Gpu.t.
Variable vkdev : VulkanDevice.t.

Lemma created_handles_app (a b : trace) :
  created_handles (a ++ b) = created_handles a ++ created_handles b.
Proof. apply flat_map_app. Qed.

Lemma destroyed_handles_app (a b : trace) :
  destroyed_handles (a ++ b) = destroyed_handles a ++ destroyed_handles b.
Proof. apply flat_map_app. Qed.

(** What a call of [create_shader_module] leaves: nothing is destroyed;
    on success the one handle created is the non-null module returned,
    on failure nothing was created and the out pointer is untouched. *)
Lemma create_shader_module_run (idx : Z) (opt : Option) (lx ly lz : Z)
    (sm : VkHandle) (si : ShaderInfo) (t : trace) :
  exists (r : Z) (sm' : VkHandle) (si' : ShaderInfo) (es : trace),
    create_shader_module NCNN_VULKAN_ONLINE_SPIRV gpu vkdev
      idx opt lx ly lz sm si t = ((r, sm', si'), t ++ es)
    /\ destroyed_handles es = []
    /\ ((r = 0 /\ non_null sm' = true
         /\ created_handles es = [(ShaderModule, sm')])
        \/ (r = -1 /\ sm' = sm /\ created_handles es = [])).
Proof.
  unfold create_shader_module, create_shader_module_finish,
    vk_shader_module, bind, ask, emit, ret.
  destruct NCNN_VULKAN_ONLINE_SPIRV.
  - destruct (Gpu.compile_spirv_module gpu idx opt) as [retc spirv].
    destruct (negb (retc =? 0)).
    { do 4 eexists. split; [reflexivity |]. split; [reflexivity |].
      right. repeat split. }
    destruct (Gpu.resolve_shader_info gpu _ _ _) as [ret0 si0].
    destruct (negb (ret0 =? 0)).
    { do 4 eexists. split; [trace_norm; reflexivity |].
      split; [reflexivity |]. right. repeat split. }
    trace_norm.
    match goal with
    | |- context [non_null ?h] => destruct (non_null h) eqn:Hh
    end; cbn [negb].
    + do 4 eexists. split; [reflexivity |]. split; [reflexivity |].
      left. repeat split; [exact Hh |].
      unfold created_handles. cbn. rewrite Hh. reflexivity.
    + do 4 eexists. split; [reflexivity |]. split; [reflexivity |].
      right. repeat split.
  - match goal with
    | |- context [non_null ?h] => destruct (non_null h) eqn:Hh
    end; cbn [negb].
    + do 4 eexists. split; [reflexivity |]. split; [reflexivity |].
      left. repeat split; [exact Hh |].
      unfold created_handles. cbn. rewrite Hh. reflexivity.
    + do 4 eexists. split; [reflexivity |]. split; [reflexivity |].
      right. repeat split.
Qed.

(** What a call of [new_pipeline] leaves. *)
Lemma new_pipeline_effects (sm : VkHandle) (si : ShaderInfo)
    (specs : specialization_list) (outs : new_pipeline_outs) (t : trace) :
  exists (r : Z) (outs' : new_pipeline_outs) (es : trace),
    new_pipeline vkdev sm si specs outs t = ((r, outs'), t ++ es)
    /\ ((r = 0 /\ destroyed_handles es = []
         /\ (support_VK_KHR_descriptor_update_template
               (VulkanDevice.info vkdev) = false ->
             out_descriptor_update_template outs' = VK_NULL_HANDLE)
         /\ In (EvCreate Pipeline (Some (out_pipeline outs'))) es)
        \/ (r = -1 /\ outs' = outs
            /\ destroyed_handles es = rev (created_handles es))).
Proof.
  rewrite new_pipeline_run.
  destruct (negb _).
  { exists (-1), outs, []. rewrite app_nil_r. split; [reflexivity |].
    right. repeat split. }
  destruct (VulkanDevice.create_descriptorset_layout vkdev t _ _) as [dsl |].
  2:{ do 3 eexists. split; [reflexivity |]. right. repeat split. }
  cbv zeta.
  destruct (VulkanDevice.create_pipeline_layout vkdev _ _ _) as [pl |].
  2:{ do 3 eexists. split; [reflexivity |]. right. repeat split.
      unfold failed_run, rollback_events, destroyed_handles, created_handles.
      cbn. destruct (non_null dsl); reflexivity. }
  destruct (VulkanDevice.create_pipeline vkdev _ _ _) as [p |].
  2:{ do 3 eexists. split; [reflexivity |]. right. repeat split.
      unfold failed_run, rollback_events, destroyed_handles, created_handles.
      cbn. destruct (non_null dsl), (non_null pl); reflexivity. }
  destruct (support_VK_KHR_descriptor_update_template _) eqn:Hs.
  2:{ do 3 eexists. split; [reflexivity |]. left. repeat split.
      cbn. auto. }
  destruct (VulkanDevice.create_descriptor_update_template vkdev _ _ _)
    as [dut |].
  { do 3 eexists. split; [reflexivity |]. left. repeat split.
    - discriminate.
    - cbn. auto. }
  do 3 eexists. split; [reflexivity |]. right. repeat split.
  unfold failed_run, rollback_events, destroyed_handles, created_handles.
  cbn. destruct (non_null dsl), (non_null pl), (non_null p); reflexivity.
Qed.

Lemma get_pipeline_run (idx : Z) (opt : Option) (specs : specialization_list)
    (lx ly lz : Z) (outs : get_pipeline_outs) (c : PipelineCache) (t : trace) :
  get_pipeline NCNN_VULKAN_ONLINE_SPIRV elem_bits gpu vkdev
    idx opt specs lx ly lz outs c t =
  let key := make_digest elem_bits idx opt specs lx ly lz in
  match find_digest key (cache_digests c) 0 with
  | Some i =>
      ((0, outs_of_artifact (nth i (cache_artifacts c) null_artifact), c), t)
  | None =>
      let '(r1, sm, si, t1) :=
        create_shader_module NCNN_VULKAN_ONLINE_SPIRV gpu vkdev
          idx opt lx ly lz VK_NULL_HANDLE (out_shader_info outs) t in
      if negb (r1 =? 0)
      then ((-1, mkOuts (out_shader_module outs) (out_objects outs) si, c), t1)
      else
        let '(r2, objects, t2) :=
          new_pipeline vkdev sm si specs (out_objects outs) t1 in
        if negb (r2 =? 0)
        then ((-1, mkOuts (out_shader_module outs) objects si, c),
              t2 ++ [EvDestroy ShaderModule sm])
        else ((0, mkOuts sm objects si,
               mkCache (cache_digests c ++ [key])
                       (cache_artifacts c ++ [built_artifact sm objects si])),
              t2)
  end.
Proof.
  unfold get_pipeline. cbv zeta.
  destruct (find_digest _ _ 0); [reflexivity |].
  unfold bind at 1.
  destruct (create_shader_module _ _ _ _ _ _ _ _ _ _ t) as [[[r1 sm] si] t1].
  destruct (negb (r1 =? 0)); [reflexivity |].
  unfold bind at 1.
  destruct (new_pipeline vkdev sm si specs _ t1) as [[r2 objects] t2].
  destruct (negb (r2 =? 0)); reflexivity.
Qed.

(** The three ways a call of [get_pipeline] ends: a hit, a miss whose
    build fails, a miss whose build succeeds. *)
Lemma get_pipeline_outcome (idx : Z) (opt : Option)
    (specs : specialization_list) (lx ly lz : Z)
    (outs : get_pipeline_outs) (c : PipelineCache) (t : trace) :
  let key := make_digest elem_bits idx opt specs lx ly lz in
  exists (r : Z) (outs' : get_pipeline_outs) (c' : PipelineCache)
         (es : trace),
    get_pipeline NCNN_VULKAN_ONLINE_SPIRV elem_bits gpu vkdev
      idx opt specs lx ly lz outs c t = ((r, outs', c'), t ++ es)
    /\ ((exists i : nat,
           find_digest key (cache_digests c) 0 = Some i
           /\ r = 0 /\ c' = c /\ es = []
           /\ outs' = outs_of_artifact
                       (nth i (cache_artifacts c) null_artifact))
        \/ (find_digest key (cache_digests c) 0 = None
            /\ build_fails NCNN_VULKAN_ONLINE_SPIRV gpu vkdev
                 idx opt specs lx ly lz outs t
            /\ r = -1 /\ c' = c
            /\ destroyed_handles es = rev (created_handles es))
        \/ (find_digest key (cache_digests c) 0 = None
            /\ ~ build_fails NCNN_VULKAN_ONLINE_SPIRV gpu vkdev
                   idx opt specs lx ly lz outs t
            /\ r = 0
            /\ destroyed_handles es = []
            /\ exists cc : pipeline_cache_artifact,
                 c' = mkCache (cache_digests c ++ [key])
                              (cache_artifacts c ++ [cc])
                 /\ outs' = outs_of_artifact cc
                 /\ artifact_ok vkdev cc
                 /\ In (EvCreate ShaderModule (Some (shader_module cc))) es
                 /\ In (EvCreate Pipeline (Some (pipeline cc))) es)).
Proof.
  intros key. rewrite get_pipeline_run. fold key. unfold build_fails.
  destruct (find_digest key (cache_digests c) 0) as [i |] eqn:Hfind.
  { exists 0, (outs_of_artifact (nth i (cache_artifacts c) null_artifact)),
      c, [].
    rewrite app_nil_r. split; [reflexivity |].
    left. exists i. repeat split. }
  destruct (create_shader_module_run
              idx opt lx ly lz VK_NULL_HANDLE (out_shader_info outs) t)
    as (r1 & sm & si & es1 & Hcsm & Hd1 & Hc1).
  rewrite Hcsm.
  destruct Hc1 as [(-> & Hsm & Hcr1) | (-> & -> & Hcr1)].
  2:{ cbn [Z.eqb negb].
      do 4 eexists. split; [reflexivity |].
      right; left. repeat split; [left; discriminate |].
      rewrite Hd1, Hcr1. reflexivity. }
  cbn [Z.eqb negb].
  destruct (new_pipeline_effects sm si specs (out_objects outs)
              (t ++ es1))
    as (r2 & objects & es2 & Hnp & Hc2).
  rewrite Hnp.
  destruct Hc2 as [(-> & Hd2 & Hdut & Hp) | (-> & -> & Hd2)].
  - cbn [Z.eqb negb fst]. trace_norm.
    do 4 eexists. split; [reflexivity |].
    right; right. repeat split.
    + intros [H | H]; apply H; reflexivity.
    + rewrite destroyed_handles_app, Hd1, Hd2. reflexivity.
    + exists (built_artifact sm objects si).
      repeat split.
      * symmetry. apply outs_of_built_artifact.
      * exact Hdut.
      * apply in_or_app. left.
        clear - Hcr1 Hsm.
        induction es1 as [| e es1 IH]; [discriminate |].
        unfold created_handles in Hcr1. cbn [flat_map] in Hcr1.
        destruct e as [| | r [h |] |]; cbn [app] in Hcr1;
          try (right; apply IH; exact Hcr1).
        destruct (non_null h) eqn:Hh; cbn [app] in Hcr1.
        -- injection Hcr1 as Hr Hhh _. subst. left. reflexivity.
        -- right; apply IH; exact Hcr1.
      * apply in_or_app. right. exact Hp.
  - cbn [Z.eqb negb fst]. trace_norm.
    do 4 eexists. split; [reflexivity |].
    right; left. repeat split; [right; discriminate |].
    rewrite !destroyed_handles_app, !created_handles_app, Hd1, Hd2, Hcr1.
    cbn. rewrite rev_app_distr. reflexivity.
Qed.

End Runs.

(** ** The search loop and the states of the cache *)

Lemma digest_eqb_refl (d : pipeline_cache_digest) : digest_eqb d d = true.
Proof.
  unfold digest_eqb. rewrite !Z.eqb_refl.
  destruct (list_eq_dec Z.eq_dec _ _); [reflexivity | contradiction].
Qed.

Lemma find_digest_some (key : pipeline_cache_digest)
    (digests : list pipeline_cache_digest) :
  forall (i0 j : nat),
    find_digest key digests i0 = Some j ->
    exists m : nat, j = (i0 + m)%nat /\ first_hit key digests m.
Proof.
  induction digests as [| d rest IH]; intros i0 j H; cbn in H.
  - discriminate.
  - destruct (digest_eqb d key) eqn:Hd.
    + injection H as <-. exists 0%nat. split; [lia |].
      split; [exists d; auto |]. intros k d' Hk. lia.
    + apply IH in H. destruct H as (m & -> & (d' & Hn & He) & Hbefore).
      exists (S m). split; [lia |]. split; [exists d'; auto |].
      intros k d0 Hk Hnth. destruct k as [| k]; cbn in Hnth.
      * injection Hnth as <-. exact Hd.
      * apply (Hbefore k); [lia | exact Hnth].
Qed.

Lemma find_digest_none (key : pipeline_cache_digest)
    (digests : list pipeline_cache_digest) :
  forall i0 : nat,
    find_digest key digests i0 = None <->
    (forall d, In d digests -> digest_eqb d key = false).
Proof.
  induction digests as [| d rest IH]; intros i0; cbn.
  - split; [intros _ d [] | reflexivity].
  - destruct (digest_eqb d key) eqn:Hd.
    + split; [discriminate |]. intros H.
      rewrite (H d) in Hd by (left; reflexivity). discriminate.
    + rewrite IH. split.
      * intros H d' [<- | Hin]; [exact Hd | apply H; exact Hin].
      * intros H d' Hin. apply H. right. exact Hin.
Qed.

Lemma find_digest_hit (key : pipeline_cache_digest)
    (digests : list pipeline_cache_digest) (i : nat)
    (d : pipeline_cache_digest) :
  nth_error digests i = Some d -> digest_eqb d key = true ->
  exists j : nat,
    find_digest key digests 0 = Some j /\ (j <= i)%nat
    /\ first_hit key digests j.
Proof.
  intros Hn He.
  destruct (find_digest key digests 0) as [j |] eqn:Hf.
  - destruct (find_digest_some _ _ _ _ Hf) as (m & -> & Hm).
    exists m. split; [reflexivity |]. split; [| exact Hm].
    destruct (Nat.le_gt_cases m i) as [Hle | Hgt]; [exact Hle |].
    destruct Hm as [_ Hbefore].
    rewrite (Hbefore i d Hgt Hn) in He. discriminate.
  - rewrite find_digest_none in Hf.
    rewrite (Hf d) in He by (eapply nth_error_In; exact Hn). discriminate.
Qed.

Lemma find_digest_appended (key : pipeline_cache_digest)
    (digests : list pipeline_cache_digest) :
  forall i0 : nat,
    find_digest key digests i0 = None ->
    find_digest key (digests ++ [key]) i0 = Some (i0 + length digests)%nat.
Proof.
  induction digests as [| d rest IH]; intros i0 H; cbn in *.
  - rewrite digest_eqb_refl. f_equal. lia.
  - destruct (digest_eqb d key); [discriminate |].
    rewrite IH by exact H. f_equal. lia.
Qed.

Section Invariant.

Variable NCNN_VULKAN_ONLINE_SPIRV : bool.
Variable elem_bits : Z.
Variable gpu : Gpu.t.
Variable vkdev : VulkanDevice.t.

Lemma get_pipeline_spv_cache (spv_data : list Z) (spv_data_size : Z)
    (specs : specialization_list) (lx ly lz : Z)
    (outs : get_pipeline_outs) (c : PipelineCache) (t : trace) :
  snd (fst (get_pipeline_spv gpu vkdev spv_data spv_data_size specs
              lx ly lz outs c t)) = c.
Proof.
  unfold get_pipeline_spv, vk_shader_module, vk_destroy, bind, ask, emit, ret.
  destruct (Gpu.resolve_shader_info gpu _ _ _) as [ret0 si].
  destruct (negb (ret0 =? 0)); [reflexivity |].
  destruct (negb (non_null _)); [reflexivity |].
  destruct (new_pipeline vkdev _ _ _ _ _) as [[r objects] t2].
  destruct (negb (r =? 0)); reflexivity.
Qed.

Lemma clear_cache (c : PipelineCache) (t : trace) :
  fst (clear vkdev c t) = empty_cache.
Proof.
  unfold clear, bind, ret.
  destruct (clear_loop vkdev (cache_artifacts c) t). reflexivity.
Qed.

Lemma cache_inv_empty : cache_inv vkdev empty_cache.
Proof. split; [reflexivity | constructor]. Qed.

Lemma reachable_inv (c : PipelineCache) :
  reachable NCNN_VULKAN_ONLINE_SPIRV elem_bits gpu vkdev c ->
  cache_inv vkdev c.
Proof.
  induction 1 as [| c idx opt specs lx ly lz outs t Hc IH
                  | c spv n specs lx ly lz outs t Hc IH
                  | c t Hc IH].
  - apply cache_inv_empty.
  - destruct (get_pipeline_outcome NCNN_VULKAN_ONLINE_SPIRV elem_bits gpu
                vkdev idx opt specs lx ly lz outs c t)
      as (r & outs' & c' & es & Heq & Hcases).
    rewrite Heq. cbn [fst snd].
    destruct Hcases as [(i & _ & _ & -> & _)
                       | [(_ & _ & _ & -> & _)
                         | (_ & _ & _ & _ & cc & -> & _ & Hok & _)]];
      try exact IH.
    destruct IH as [Hlen Hall]. split.
    + unfold same_length in *. cbn. rewrite !length_app, Hlen. reflexivity.
    + cbn. apply Forall_app. split; [exact Hall | constructor; auto].
  - rewrite get_pipeline_spv_cache. exact IH.
  - rewrite clear_cache. apply cache_inv_empty.
Qed.

End Invariant.

(** ** The keyed entry point *)

Lemma created_handles_destroyed (es : trace) (r : resource) (h : VkHandle) :
  In (r, h) (destroyed_handles es) -> In (EvDestroy r h) es.
Proof.
  unfold destroyed_handles. rewrite in_flat_map.
  intros (e & Hin & He).
  destruct e as [| | r' res | r' h']; cbn in He; try contradiction.
  destruct He as [He | []]. injection He as -> ->. exact Hin.
Qed.

(** C3.  A request of [get_pipeline] by shader type index that no stored
    digest matches and whose build fails, in [create_shader_module] or
    in [new_pipeline], returns -1 and leaves both vectors of the cache
    as they were; every non-null handle created during the attempt, the
    shader module among them, is destroyed, each once, last created
    first. *)
Theorem get_pipeline_failed_build_keeps_cache :
  forall (NCNN_VULKAN_ONLINE_SPIRV : bool) (elem_bits : Z) (gpu : Gpu.t)
         (vkdev : VulkanDevice.t) (idx : Z) (opt : Option)
         (specs : specialization_list) (lx ly lz : Z)
         (outs : get_pipeline_outs) (c : PipelineCache) (t : trace),
    (forall d, In d (cache_digests c) ->
               digest_eqb d (make_digest elem_bits idx opt specs lx ly lz)
               = false) ->
    build_fails NCNN_VULKAN_ONLINE_SPIRV gpu vkdev idx opt specs lx ly lz
      outs t ->
    exists (outs' : get_pipeline_outs) (es : trace),
      get_pipeline NCNN_VULKAN_ONLINE_SPIRV elem_bits gpu vkdev
        idx opt specs lx ly lz outs c t = ((-1, outs', c), t ++ es)
      /\ destroyed_handles es = rev (created_handles es)
      /\ (forall r h, In (r, h) (created_handles es) ->
                      In (EvDestroy r h) es).
Proof.
  intros online w gpu vkdev idx opt specs lx ly lz outs c t Hmiss Hfail.
  apply (find_digest_none _ _ 0%nat) in Hmiss.
  destruct (get_pipeline_outcome online w gpu vkdev idx opt specs lx ly lz
              outs c t) as (r & outs' & c' & es & Heq & Hcases).
  destruct Hcases as [(i & Hhit & _)
                     | [(_ & _ & -> & -> & Hd)
                       | (_ & Hok & _)]].
  - rewrite Hmiss in Hhit. discriminate.
  - exists outs', es. split; [exact Heq |]. split; [exact Hd |].
    intros r h Hin. apply created_handles_destroyed.
    rewrite Hd. apply in_rev. rewrite rev_involutive. exact Hin.
  - contradiction.
Qed.

(** C4.  In a cache whose two vectors have the same length and where
    some index holds a digest equal to the key of the request, also when
    several do, [get_pipeline] returns 0, the out parameters hold the
    five handles and the [ShaderInfo] of the artifact at the first such
    index, the trace is the one it started from (no primitive was
    called) and the cache is the one it started from.  A request that
    returned 0, repeated on the cache it left, returns 0 with the same
    out parameters, calls nothing and leaves the cache. *)
Theorem get_pipeline_hit :
  forall (NCNN_VULKAN_ONLINE_SPIRV : bool) (elem_bits : Z) (gpu : Gpu.t)
         (vkdev : VulkanDevice.t) (idx : Z) (opt : Option)
         (specs : specialization_list) (lx ly lz : Z)
         (outs : get_pipeline_outs) (c : PipelineCache) (t : trace),
    same_length c ->
    let key := make_digest elem_bits idx opt specs lx ly lz in
    let request :=
      get_pipeline NCNN_VULKAN_ONLINE_SPIRV elem_bits gpu vkdev
        idx opt specs lx ly lz in
    (forall (i : nat) (d : pipeline_cache_digest),
        nth_error (cache_digests c) i = Some d ->
        digest_eqb d key = true ->
        exists (j : nat) (cc : pipeline_cache_artifact),
          (j <= i)%nat
          /\ first_hit key (cache_digests c) j
          /\ nth_error (cache_artifacts c) j = Some cc
          /\ request outs c t = ((0, outs_of_artifact cc, c), t))
    /\ (forall (outs1 : get_pipeline_outs) (c1 : PipelineCache) (t1 : trace),
          request outs c t = ((0, outs1, c1), t1) ->
          forall (outs2 : get_pipeline_outs) (t2 : trace),
            request outs2 c1 t2 = ((0, outs1, c1), t2)).
Proof.
  intros online w gpu vkdev idx opt specs lx ly lz outs c t Hlen key request.
  unfold same_length in Hlen.
  split.
  - intros i d Hn He.
    destruct (find_digest_hit key _ i d Hn He) as (j & Hf & Hle & Hfirst).
    assert (Hj : (j < length (cache_artifacts c))%nat).
    { rewrite <- Hlen. apply nth_error_Some.
      destruct Hfirst as [(d' & Hd' & _) _]. rewrite Hd'. discriminate. }
    destruct (nth_error (cache_artifacts c) j) as [cc |] eqn:Hcc;
      [| apply nth_error_None in Hcc; lia].
    exists j, cc. repeat split; try assumption; try apply Hfirst.
    unfold request. rewrite get_pipeline_run. cbv zeta. fold key. rewrite Hf.
    rewrite (nth_error_nth _ _ _ Hcc). reflexivity.
  - intros outs1 c1 t1 Hrun outs2 t2.
    unfold request in *.
    destruct (get_pipeline_outcome online w gpu vkdev idx opt specs
                lx ly lz outs c t) as (r & outs' & c' & es & Heq & Hcases).
    rewrite Heq in Hrun. injection Hrun as Hr Ho Hc Ht.
    subst r outs' c' t1.
    fold key in Hcases.
    destruct Hcases as [(i & Hhit & _ & -> & _ & ->)
                       | [(_ & _ & Hr & _)
                         | (Hmiss & _ & _ & _ & cc & -> & -> & _)]].
    + rewrite get_pipeline_run. cbv zeta. fold key.
      rewrite Hhit. reflexivity.
    + discriminate.
    + rewrite get_pipeline_run. cbv zeta. fold key.
      cbn [cache_digests cache_artifacts].
      rewrite (find_digest_appended key _ 0 Hmiss). cbn [Nat.add].
      rewrite Hlen, nth_middle. reflexivity.
Qed.

(** C9.  From a cache whose two vectors have the same length, each of the
    three public member functions leaves such a cache.  [get_pipeline]
    by shader type index leaves the cache as it was or with one digest
    and one artifact more, appended together at the end of each vector:
    the key of the request and the artifact handed to the caller; what
    was stored before stays at its index, unchanged.  [get_pipeline] from
    SPIR-V words leaves the cache as it was.  [clear] leaves the empty
    cache. *)
Theorem cache_operations_keep_pairs :
  forall (NCNN_VULKAN_ONLINE_SPIRV : bool) (elem_bits : Z) (gpu : Gpu.t)
         (vkdev : VulkanDevice.t) (c : PipelineCache) (t : trace),
    same_length c ->
    (forall (idx : Z) (opt : Option) (specs : specialization_list)
            (lx ly lz : Z) (outs : get_pipeline_outs),
        let run :=
          get_pipeline NCNN_VULKAN_ONLINE_SPIRV elem_bits gpu vkdev
            idx opt specs lx ly lz outs c t in
        let c' := snd (fst run) in
        same_length c'
        /\ (c' = c
            \/ exists cc : pipeline_cache_artifact,
                 c' = mkCache
                        (cache_digests c
                           ++ [make_digest elem_bits idx opt specs lx ly lz])
                        (cache_artifacts c ++ [cc])
                 /\ fst (fst (fst run)) = 0
                 /\ snd (fst (fst run)) = outs_of_artifact cc)
        /\ (forall i d, nth_error (cache_digests c) i = Some d ->
                        nth_error (cache_digests c') i = Some d)
        /\ (forall i a, nth_error (cache_artifacts c) i = Some a ->
                        nth_error (cache_artifacts c') i = Some a))
    /\ (forall (spv_data : list Z) (spv_data_size : Z)
               (specs : specialization_list) (lx ly lz : Z)
               (outs : get_pipeline_outs),
          snd (fst (get_pipeline_spv gpu vkdev spv_data spv_data_size specs
                      lx ly lz outs c t)) = c)
    /\ fst (clear vkdev c t) = empty_cache
    /\ same_length empty_cache.
Proof.
  intros online w gpu vkdev c t Hlen.
  split; [| split; [| split]].
  - intros idx opt specs lx ly lz outs run c'.
    destruct (get_pipeline_outcome online w gpu vkdev idx opt specs
                lx ly lz outs c t) as (r & outs' & c1 & es & Heq & Hcases).
    unfold c', run. rewrite Heq. cbn [fst snd].
    destruct Hcases as [(i & _ & _ & -> & _)
                       | [(_ & _ & _ & -> & _)
                         | (_ & _ & -> & _ & cc & -> & -> & _)]].
    + repeat split; auto.
    + repeat split; auto.
    + cbn [cache_digests cache_artifacts]. repeat split.
      * unfold same_length in *. cbn. rewrite !length_app, Hlen. reflexivity.
      * right. exists cc. repeat split.
      * intros i d Hn. rewrite nth_error_app1; [exact Hn |].
        apply nth_error_Some. rewrite Hn. discriminate.
      * intros i a Hn. rewrite nth_error_app1; [exact Hn |].
        apply nth_error_Some. rewrite Hn. discriminate.
  - intros. apply get_pipeline_spv_cache.
  - apply clear_cache.
  - reflexivity.
Qed.

(** ** [clear] and the entry point on SPIR-V words *)

Section Clear.

Variable vkdev : VulkanDevice.t.

Lemma clear_artifact_run (cc : pipeline_cache_artifact) (t : trace) :
  artifact_ok vkdev cc ->
  clear_artifact vkdev cc t = (tt, t ++ artifact_teardown cc).
Proof.
  intros Hok.
  unfold clear_artifact, artifact_teardown, vk_destroy, when, bind, emit, ret.
  cbn [filter fst snd].
  unfold artifact_ok in Hok.
  destruct (support_VK_KHR_descriptor_update_template
              (VulkanDevice.info vkdev)).
  - destruct (non_null (descriptor_update_template cc)),
      (non_null (pipeline cc)), (non_null (pipeline_layout cc)),
      (non_null (descriptorset_layout cc)), (non_null (shader_module cc));
      cbn [map fst snd]; trace_norm; rewrite ?app_nil_r; reflexivity.
  - rewrite (Hok eq_refl).
    change (non_null VK_NULL_HANDLE) with false.
    destruct (non_null (pipeline cc)), (non_null (pipeline_layout cc)),
      (non_null (descriptorset_layout cc)), (non_null (shader_module cc));
      cbn [map fst snd]; trace_norm; rewrite ?app_nil_r; reflexivity.
Qed.

Lemma clear_loop_run (artifacts : list pipeline_cache_artifact) :
  Forall (artifact_ok vkdev) artifacts ->
  forall t : trace,
    clear_loop vkdev artifacts t
    = (tt, t ++ flat_map artifact_teardown artifacts).
Proof.
  induction 1 as [| cc rest Hcc _ IH]; intros t; cbn [clear_loop flat_map].
  - unfold ret. rewrite app_nil_r. reflexivity.
  - unfold bind. rewrite (clear_artifact_run cc t Hcc), IH.
    rewrite <- app_assoc. reflexivity.
Qed.

End Clear.

(** C7.  On a cache of the program, [clear] destroys for each artifact,
    in the order of the vector, its update template, its pipeline, its
    pipeline layout, its descriptor-set layout and its shader module, in
    that order, each non-null handle once and no null handle, and
    destroys nothing else; it leaves both vectors empty. *)
Theorem clear_destroys_all :
  forall (NCNN_VULKAN_ONLINE_SPIRV : bool) (elem_bits : Z) (gpu : Gpu.t)
         (vkdev : VulkanDevice.t) (c : PipelineCache) (t : trace),
    reachable NCNN_VULKAN_ONLINE_SPIRV elem_bits gpu vkdev c ->
    clear vkdev c t
    = (empty_cache, t ++ flat_map artifact_teardown (cache_artifacts c))
    /\ cache_digests (fst (clear vkdev c t)) = []
    /\ cache_artifacts (fst (clear vkdev c t)) = [].
Proof.
  intros online w gpu vkdev c t Hreach.
  destruct (reachable_inv _ _ _ _ _ Hreach) as [_ Hall].
  assert (Hrun : clear vkdev c t
                 = (empty_cache,
                    t ++ flat_map artifact_teardown (cache_artifacts c))).
  { unfold clear, bind, ret. rewrite (clear_loop_run vkdev _ Hall).
    reflexivity. }
  rewrite Hrun. repeat split.
Qed.

(** C8.  [get_pipeline] from SPIR-V words returns the cache it was
    given, and what it returns, writes and calls is the same whatever
    that cache holds.  Its first call resolves the shader info of the
    words, and when that succeeds its second asks the device for a new
    shader module; when the module is not null it runs [new_pipeline] on
    it.  It returns 0 exactly when the three succeed, with the module and
    the objects that [new_pipeline] built as out parameters: it has then
    created, and not destroyed, a shader module and a pipeline, which
    are the ones it hands out.  When [new_pipeline] fails it destroys
    the module and returns -1. *)
Theorem get_pipeline_spv_ignores_cache :
  forall (gpu : Gpu.t) (vkdev : VulkanDevice.t)
         (spv_data : list Z) (spv_data_size : Z)
         (specs : specialization_list) (lx ly lz : Z)
         (outs : get_pipeline_outs) (c : PipelineCache) (t : trace),
    exists (r : Z) (outs' : get_pipeline_outs) (es : trace),
      get_pipeline_spv gpu vkdev spv_data spv_data_size specs lx ly lz
        outs c t = ((r, outs', c), t ++ es)
      /\ (forall c2 : PipelineCache,
            get_pipeline_spv gpu vkdev spv_data spv_data_size specs lx ly lz
              outs c2 t = ((r, outs', c2), t ++ es))
      /\ (exists rest : trace,
            es = EvResolveShaderInfo
                   (fst (Gpu.resolve_shader_info gpu spv_data spv_data_size
                           (out_shader_info outs))) :: rest)
      /\ (r = 0 \/ r = -1)
      /\ (fst (Gpu.resolve_shader_info gpu spv_data spv_data_size
                 (out_shader_info outs)) = 0 ->
          exists (res : option VkHandle) (rest : trace),
            es = EvResolveShaderInfo 0 :: EvCreate ShaderModule res :: rest)
      /\ (r = 0 ->
          out_shader_module outs'
          = VulkanDevice.compile_shader_module vkdev
              (t ++ [EvResolveShaderInfo 0]) spv_data spv_data_size lx ly lz
          /\ In (EvCreate ShaderModule (Some (out_shader_module outs'))) es
          /\ In (EvCreate Pipeline
                   (Some (out_pipeline (out_objects outs')))) es
          /\ destroyed_handles es = [])
      /\ (let resolved :=
            Gpu.resolve_shader_info gpu spv_data spv_data_size
              (out_shader_info outs) in
          let sm :=
            VulkanDevice.compile_shader_module vkdev
              (t ++ [EvResolveShaderInfo 0]) spv_data spv_data_size
              lx ly lz in
          let build :=
            new_pipeline vkdev sm (snd resolved) specs (out_objects outs)
              (t ++ [EvResolveShaderInfo 0;
                     EvCreate ShaderModule (Some sm)]) in
          (r = 0 <->
           fst resolved = 0 /\ non_null sm = true /\ fst (fst build) = 0)
          /\ (fst resolved = 0 -> non_null sm = true ->
              (fst (fst build) = 0 ->
               r = 0
               /\ outs' = mkOuts sm (snd (fst build)) (snd resolved)
               /\ t ++ es = snd build)
              /\ (fst (fst build) <> 0 ->
                  r = -1
                  /\ t ++ es = snd build ++ [EvDestroy ShaderModule sm]))).
Proof.
  intros gpu vkdev spv n specs lx ly lz outs c t.
  unfold get_pipeline_spv, vk_shader_module, vk_destroy, bind, ask, emit, ret.
  destruct (Gpu.resolve_shader_info gpu spv n (out_shader_info outs))
    as [ret0 si]. cbn [fst snd].
  destruct (Z.eqb_spec ret0 0) as [-> | Hne]; cbn [negb].
  2:{ do 3 eexists. split; [reflexivity |]. split; [reflexivity |].
      split; [eexists; reflexivity |]. split; [right; reflexivity |].
      split; [intros H0; contradiction |].
      split; [discriminate |].
      split; [split; [discriminate | intros (H0 & _); contradiction] |].
      intros H0; contradiction. }
  set (sm := VulkanDevice.compile_shader_module vkdev
               (t ++ [EvResolveShaderInfo 0]) spv n lx ly lz).
  destruct (non_null sm) eqn:Hsm; cbn [negb].
  2:{ trace_norm. do 3 eexists. split; [reflexivity |].
      split; [reflexivity |].
      split; [eexists; reflexivity |]. split; [right; reflexivity |].
      split; [intros _; do 2 eexists; reflexivity |].
      split; [discriminate |].
      split; [split; [discriminate | intros (_ & H1 & _); discriminate] |].
      intros _ H1; discriminate. }
  cbn [out_objects].
  replace (t ++ [EvResolveShaderInfo 0; EvCreate ShaderModule (Some sm)])
    with ((t ++ [EvResolveShaderInfo 0])
            ++ [EvCreate ShaderModule (Some sm)])
    by (rewrite <- app_assoc; reflexivity).
  destruct (new_pipeline_effects vkdev sm si specs (out_objects outs)
              ((t ++ [EvResolveShaderInfo 0])
                 ++ [EvCreate ShaderModule (Some sm)]))
    as (r2 & objects & es2 & Hnp & Hc2).
  rewrite Hnp. cbn [fst snd].
  destruct Hc2 as [(-> & Hd2 & _ & Hp) | (-> & -> & Hd2)]; cbn [Z.eqb negb].
  - trace_norm. do 3 eexists. split; [reflexivity |].
    split; [reflexivity |].
    split; [eexists; reflexivity |]. split; [left; reflexivity |].
    split; [intros _; do 2 eexists; reflexivity |].
    split.
    { intros _. cbn [out_shader_module out_objects]. repeat split.
      - right. left. reflexivity.
      - right. right. exact Hp.
      - unfold destroyed_handles in *. cbn. exact Hd2. }
    split; [split; [intros _; repeat split | reflexivity] |].
    intros _ _. split.
    + intros _. repeat split.
    + intros H; contradiction.
  - trace_norm. do 3 eexists. split; [reflexivity |].
    split; [reflexivity |].
    split; [eexists; reflexivity |]. split; [right; reflexivity |].
    split; [intros _; do 2 eexists; reflexivity |].
    split; [discriminate |].
    split; [split; [discriminate | intros (_ & _ & H); discriminate] |].
    intros _ _. split.
    + discriminate.
    + intros _. split; [reflexivity |]. trace_norm. reflexivity.
Qed.

(** On a device where every creation succeeds the call returns 0 with the
    handles it just created; where the pipeline cannot be created it
    returns -1 and has destroyed what it created. *)
Example get_pipeline_spv_on_scenario :
  get_pipeline_spv Scenario.the_gpu Scenario.good_device [7; 8] 8 [5] 8 8 1
    Scenario.no_outs Scenario.cache1 []
  = ((0, mkOuts 101 (mkObjects 102 103 104 105) Scenario.the_shader_info,
      Scenario.cache1),
     [ EvResolveShaderInfo 0;
       EvCreate ShaderModule (Some 101);
       EvCreate DescriptorSetLayout (Some 102);
       EvCreate PipelineLayout (Some 103);
       EvCreate Pipeline (Some 104);
       EvCreate DescriptorUpdateTemplate (Some 105) ])
  /\ get_pipeline_spv Scenario.the_gpu
       (Scenario.device Scenario.full_info (Scenario.only Pipeline))
       [7; 8] 8 [5] 8 8 1 Scenario.no_outs Scenario.cache1 []
     = ((-1, mkOuts 0 (mkObjects 0 0 0 0) Scenario.the_shader_info,
         Scenario.cache1),
        [ EvResolveShaderInfo 0;
          EvCreate ShaderModule (Some 101);
          EvCreate DescriptorSetLayout (Some 102);
          EvCreate PipelineLayout (Some 103);
          EvCreate Pipeline None;
          EvDestroy PipelineLayout 103;
          EvDestroy DescriptorSetLayout 102;
          EvDestroy ShaderModule 101 ]).
Proof. split; vm_compute; reflexivity. Qed.

(** ** The int8 flags *)

Lemma encode_opt_range (opt : Option) : 0 <= encode_opt opt < 256.
Proof.
  destruct opt as [[] [] [] [] [] []]; vm_compute; split; congruence.
Qed.

Lemma encode_opt_int8_bits (opt : Option) :
  Z.testbit (encode_opt opt) 3 = use_int8_storage opt
  /\ Z.testbit (encode_opt opt) 2 = use_int8_arithmetic opt.
Proof. destruct opt as [[] [] [] [] [] []]; split; reflexivity. Qed.

Lemma store_elem_small (elem_bits v : Z) :
  8 <= elem_bits -> 0 <= v < 256 -> store_elem elem_bits v = v.
Proof.
  intros Hw Hv. unfold store_elem. apply Z.mod_small.
  assert (2 ^ 8 <= 2 ^ elem_bits) by (apply Z.pow_le_mono_r; lia).
  lia.
Qed.

Lemma select_shader_type_index_int8 (vkdev : VulkanDevice.t)
    (opt1 opt2 : Option) (idx : Z) :
  use_image_storage opt1 = use_image_storage opt2 ->
  use_fp16_packed opt1 = use_fp16_packed opt2 ->
  use_fp16_storage opt1 = use_fp16_storage opt2 ->
  use_fp16_arithmetic opt1 = use_fp16_arithmetic opt2 ->
  select_shader_type_index vkdev opt1 idx
  = select_shader_type_index vkdev opt2 idx.
Proof.
  intros Hi Hp Hs Ha. unfold select_shader_type_index.
  rewrite Hi, Hp, Hs, Ha. reflexivity.
Qed.

(** C10.  Two requests that differ only in [use_int8_storage] or
    [use_int8_arithmetic] select the same shader variant, and
    [create_shader_module] on precompiled shaders does the same for
    both; the two flags are bits 3 and 2 of the packed option element,
    of at least eight bits, so the two digests are not equal, and the
    entry stored for the one is never the hit of a search for the
    other. *)
Theorem int8_flags_change_key_not_variant :
  forall (elem_bits : Z) (gpu : Gpu.t) (vkdev : VulkanDevice.t) (idx : Z)
         (specs : specialization_list) (lx ly lz : Z) (opt1 opt2 : Option),
    8 <= elem_bits ->
    use_image_storage opt1 = use_image_storage opt2 ->
    use_fp16_packed opt1 = use_fp16_packed opt2 ->
    use_fp16_storage opt1 = use_fp16_storage opt2 ->
    use_fp16_arithmetic opt1 = use_fp16_arithmetic opt2 ->
    (use_int8_storage opt1 <> use_int8_storage opt2
     \/ use_int8_arithmetic opt1 <> use_int8_arithmetic opt2) ->
    let key1 := make_digest elem_bits idx opt1 specs lx ly lz in
    let key2 := make_digest elem_bits idx opt2 specs lx ly lz in
    select_shader_type_index vkdev opt1 idx
    = select_shader_type_index vkdev opt2 idx
    /\ (forall (sm : VkHandle) (si : ShaderInfo) (t : trace),
          create_shader_module false gpu vkdev idx opt1 lx ly lz sm si t
          = create_shader_module false gpu vkdev idx opt2 lx ly lz sm si t)
    /\ Z.testbit (nth 0 (opt_local_size_bits key1) 0) 3
       = use_int8_storage opt1
    /\ Z.testbit (nth 0 (opt_local_size_bits key1) 0) 2
       = use_int8_arithmetic opt1
    /\ opt_local_size_bits key1 <> opt_local_size_bits key2
    /\ digest_eqb key1 key2 = false
    /\ (forall digests : list pipeline_cache_digest,
          find_digest key2 digests 0 = None ->
          find_digest key2 (digests ++ [key1]) 0 = None).
Proof.
  intros w gpu vkdev idx specs lx ly lz opt1 opt2 Hw Hi Hp Hs Ha Hint8
    key1 key2.
  assert (Hsel : select_shader_type_index vkdev opt1 idx
                 = select_shader_type_index vkdev opt2 idx)
    by (apply select_shader_type_index_int8; assumption).
  assert (Hbits1 : nth 0 (opt_local_size_bits key1) 0 = encode_opt opt1).
  { cbn. apply store_elem_small; [exact Hw | apply encode_opt_range]. }
  assert (Hbits : opt_local_size_bits key1 <> opt_local_size_bits key2).
  { intros Heq. cbn in Heq. injection Heq as Heq.
    rewrite !store_elem_small in Heq
      by (first [exact Hw | apply encode_opt_range]).
    destruct (encode_opt_int8_bits opt1) as [H3 H2].
    destruct (encode_opt_int8_bits opt2) as [H3' H2'].
    rewrite Heq in H3, H2.
    destruct Hint8 as [Hd | Hd]; apply Hd; congruence. }
  assert (Hneq : digest_eqb key1 key2 = false).
  { unfold digest_eqb.
    destruct (list_eq_dec Z.eq_dec (opt_local_size_bits key1)
                (opt_local_size_bits key2)) as [Heq | _];
      [contradiction |].
    destruct (shader_type_index key1 =? shader_type_index key2);
      reflexivity. }
  split; [exact Hsel |]. split.
  { intros sm si t. unfold create_shader_module. rewrite Hsel. reflexivity. }
  rewrite Hbits1.
  split; [apply encode_opt_int8_bits |].
  split; [apply encode_opt_int8_bits |].
  split; [exact Hbits |].
  split; [exact Hneq |].
  intros digests Hnone.
  rewrite find_digest_none in *.
  intros d Hin. apply in_app_or in Hin.
  destruct Hin as [Hin | [<- | []]]; [apply Hnone; exact Hin | exact Hneq].
Qed.

(** ** The functions run on the scenario *)

Lemma cache1_reachable :
  reachable false 8 Scenario.the_gpu Scenario.good_device Scenario.cache1.
Proof.
  unfold Scenario.cache1, Scenario.request.
  apply reach_get_pipeline, reach_new.
Qed.

(** The scenario of the specification: kernel 3 with image storage, fp16
    storage and fp16 arithmetic on a device without the erratum selects
    shader 12; the first request builds and stores, the second returns
    the same handles and calls nothing. *)
Example scenario_kernel_3 :
  let first :=
    Scenario.request Scenario.good_device Scenario.image_fp16sa
      Scenario.no_outs empty_cache [] in
  let outs1 := snd (fst (fst first)) in
  select_shader_type_index Scenario.good_device Scenario.image_fp16sa 3 = 12
  /\ fst (fst (fst first)) = 0
  /\ out_shader_module outs1 = 12100
  /\ out_objects outs1 = mkObjects 101 102 103 104
  /\ snd first
     = [ EvCreate ShaderModule (Some 12100);
         EvCreate DescriptorSetLayout (Some 101);
         EvCreate PipelineLayout (Some 102);
         EvCreate Pipeline (Some 103);
         EvCreate DescriptorUpdateTemplate (Some 104) ]
  /\ map opt_local_size_bits (cache_digests Scenario.cache1)
     = [[176; 8; 8; 1]]
  /\ Scenario.request Scenario.good_device Scenario.image_fp16sa
       Scenario.no_outs Scenario.cache1 (snd first)
     = ((0, outs1, Scenario.cache1), snd first).
Proof. vm_compute. repeat split. Qed.

Lemma get_pipeline_failed_build_keeps_cache_witness :
  exists (outs' : get_pipeline_outs) (es : trace),
    Scenario.request
      (Scenario.device Scenario.full_info (Scenario.only Pipeline))
      Scenario.image_fp16sa Scenario.no_outs empty_cache []
    = ((-1, outs', empty_cache), [] ++ es)
    /\ destroyed_handles es = rev (created_handles es)
    /\ (forall r h, In (r, h) (created_handles es) ->
                    In (EvDestroy r h) es).
Proof.
  apply get_pipeline_failed_build_keeps_cache.
  - intros d [].
  - vm_compute. right. discriminate.
Defined.

Lemma get_pipeline_hit_witness :
  Scenario.request Scenario.good_device Scenario.image_fp16sa
    Scenario.no_outs Scenario.twice []
  = ((0, outs_of_artifact Scenario.first_artifact, Scenario.twice), [])
  /\ Scenario.request Scenario.good_device Scenario.image_fp16sa
       Scenario.no_outs Scenario.cache1 []
     = ((0, mkOuts 12100 (mkObjects 101 102 103 104)
              Scenario.the_shader_info,
         Scenario.cache1), []).
Proof.
  split.
  - assert (Hlen : same_length Scenario.twice) by reflexivity.
    destruct (proj1 (get_pipeline_hit false 8 Scenario.the_gpu
                       Scenario.good_device 3 Scenario.image_fp16sa [5]
                       8 8 1 Scenario.no_outs Scenario.twice [] Hlen)
                1%nat Scenario.the_key eq_refl
                (digest_eqb_refl Scenario.the_key))
      as (j & cc & _ & [_ Hbefore] & Hcc & Hrun).
    destruct j as [| j].
    + injection Hcc as <-. exact Hrun.
    + assert (F : digest_eqb Scenario.the_key Scenario.the_key = false).
      { apply (Hbefore 0%nat); [lia | reflexivity]. }
      rewrite digest_eqb_refl in F. discriminate.
  - assert (Hlen : same_length empty_cache) by reflexivity.
    apply (proj2 (get_pipeline_hit false 8 Scenario.the_gpu
                    Scenario.good_device 3 Scenario.image_fp16sa [5] 8 8 1
                    Scenario.no_outs empty_cache [] Hlen)
             _ _
             [ EvCreate ShaderModule (Some 12100);
               EvCreate DescriptorSetLayout (Some 101);
               EvCreate PipelineLayout (Some 102);
               EvCreate Pipeline (Some 103);
               EvCreate DescriptorUpdateTemplate (Some 104) ]).
    vm_compute. reflexivity.
Defined.

Lemma cache_operations_keep_pairs_witness :
  same_length Scenario.cache1
  /\ fst (clear Scenario.good_device Scenario.cache1 []) = empty_cache.
Proof.
  assert (H : same_length Scenario.cache1) by reflexivity.
  split; [exact H |].
  apply (cache_operations_keep_pairs false 8 Scenario.the_gpu
           Scenario.good_device Scenario.cache1 [] H).
Defined.

Lemma clear_destroys_all_witness :
  clear Scenario.good_device Scenario.cache1 []
  = (empty_cache,
     [ EvDestroy DescriptorUpdateTemplate 104;
       EvDestroy Pipeline 103;
       EvDestroy PipelineLayout 102;
       EvDestroy DescriptorSetLayout 101;
       EvDestroy ShaderModule 12100 ]).
Proof.
  exact (proj1 (clear_destroys_all false 8 Scenario.the_gpu
                  Scenario.good_device Scenario.cache1 []
                  cache1_reachable)).
Defined.

Lemma int8_flags_change_key_not_variant_witness :
  select_shader_type_index Scenario.good_device Scenario.image_fp16sa 3
  = select_shader_type_index Scenario.good_device
      Scenario.image_fp16sa_int8 3
  /\ digest_eqb
       (make_digest 8 3 Scenario.image_fp16sa [5] 8 8 1)
       (make_digest 8 3 Scenario.image_fp16sa_int8 [5] 8 8 1) = false.
Proof.
  assert (Hw : 8 <= 8) by lia.
  assert (Hint8 : use_int8_storage Scenario.image_fp16sa
                  <> use_int8_storage Scenario.image_fp16sa_int8
                  \/ use_int8_arithmetic Scenario.image_fp16sa
                     <> use_int8_arithmetic Scenario.image_fp16sa_int8)
    by (left; discriminate).
  destruct (int8_flags_change_key_not_variant 8 Scenario.the_gpu
              Scenario.good_device 3 [5] 8 8 1
              Scenario.image_fp16sa Scenario.image_fp16sa_int8
              Hw eq_refl eq_refl eq_refl eq_refl Hint8)
    as (Hsel & _ & _ & _ & _ & Hneq & _).
  split; [exact Hsel | exact Hneq].
Defined.

(** ** What the hashes tell apart *)

(** multiplication by a constant that has an inverse modulo 2^32 loses
    nothing *)
Lemma mul32_inj (c inv a b : Z) :
  (c * inv) mod 2 ^ 32 = 1 ->
  mul32 a c = mul32 b c -> a mod 2 ^ 32 = b mod 2 ^ 32.
Proof.
  intros Hinv H. unfold mul32, u32, modulus in H.
  assert (Ha : forall x, x mod 2 ^ 32 = ((x * c) mod 2 ^ 32 * inv) mod 2 ^ 32).
  { intros x. rewrite Z.mul_mod_idemp_l by lia.
    rewrite <- Z.mul_assoc, <- Z.mul_mod_idemp_r by lia.
    rewrite Hinv, Z.mul_1_r. reflexivity. }
  rewrite (Ha a), (Ha b), H. reflexivity.
Qed.

Lemma rot_arith_core (P Q mx my qx qy : Z) :
  0 < P -> 0 <= mx < Q -> 0 <= my < Q -> 0 <= qx < P -> 0 <= qy < P ->
  mx * P + qx = my * P + qy -> mx = my /\ qx = qy.
Proof.
  intros HP Bx By Qx Qy H.
  assert (mx = my).
  { destruct (Z.lt_trichotomy mx my) as [L | [E | G]];
      [exfalso | exact E | exfalso].
    - assert (P <= (my - mx) * P) by nia. lia.
    - assert (P <= (mx - my) * P) by nia. lia. }
  subst. split; [reflexivity | lia].
Qed.

Lemma rot_arith (P Q x y : Z) :
  0 < P -> 0 < Q ->
  0 <= x < P * Q -> 0 <= y < P * Q ->
  (x mod Q) * P + x / Q = (y mod Q) * P + y / Q -> x = y.
Proof.
  intros HP HQ Hx Hy H.
  assert (Qx : 0 <= x / Q < P).
  { split; [apply Z.div_pos; lia |].
    apply Z.div_lt_upper_bound; lia. }
  assert (Qy : 0 <= y / Q < P).
  { split; [apply Z.div_pos; lia |].
    apply Z.div_lt_upper_bound; lia. }
  destruct (rot_arith_core P Q (x mod Q) (y mod Q) (x / Q) (y / Q) HP
              (Z.mod_pos_bound x Q HQ) (Z.mod_pos_bound y Q HQ) Qx Qy H)
    as [Hm Hq].
  rewrite (Z.div_mod x Q), (Z.div_mod y Q) by lia.
  rewrite Hm, Hq. reflexivity.
Qed.

Lemma rotl32_inj (r x y : Z) :
  0 < r < 32 -> 0 <= x < 2 ^ 32 -> 0 <= y < 2 ^ 32 ->
  Reference.rotl32 x r = Reference.rotl32 y r -> x = y.
Proof.
  intros Hr Hx Hy H. unfold Reference.rotl32 in H.
  assert (Hp : 2 ^ 32 = 2 ^ (32 - r) * 2 ^ r)
    by (rewrite <- Z.pow_add_r by lia; f_equal; lia).
  assert (Hr0 : 0 < 2 ^ r) by (apply Z.pow_pos_nonneg; lia).
  assert (Hs0 : 0 < 2 ^ (32 - r)) by (apply Z.pow_pos_nonneg; lia).
  rewrite Hp in H, Hx, Hy.
  rewrite !Z.mul_mod_distr_r in H by lia.
  apply (rot_arith (2 ^ r) (2 ^ (32 - r))); try assumption.
  - rewrite Z.mul_comm. exact Hx.
  - rewrite Z.mul_comm. exact Hy.
Qed.

Lemma lxor_cancel_l (h a b : Z) : Z.lxor h a = Z.lxor h b -> a = b.
Proof.
  intros H.
  rewrite <- (Z.lxor_0_l a), <- (Z.lxor_0_l b).
  rewrite <- (Z.lxor_nilpotent h), !Z.lxor_assoc, H. reflexivity.
Qed.

Lemma lxor_cancel_r (h a b : Z) : Z.lxor a h = Z.lxor b h -> a = b.
Proof. rewrite !(Z.lxor_comm _ h). apply lxor_cancel_l. Qed.

(** [x ^ (x >> s)] loses nothing on 32 bits *)
Lemma xorshift_inj (s x y : Z) :
  0 < s -> 0 <= x < 2 ^ 32 -> 0 <= y < 2 ^ 32 ->
  Z.lxor x (Z.shiftr x s) = Z.lxor y (Z.shiftr y s) -> x = y.
Proof.
  intros Hs Hx Hy H.
  assert (Hbits : forall n : nat, forall i : Z,
             32 - Z.of_nat n <= i -> Z.testbit x i = Z.testbit y i).
  { induction n as [| n IH]; intros i Hi.
    - rewrite !testbit_high_u32 by (first [assumption | lia]). reflexivity.
    - destruct (Z.neg_nonneg_cases i) as [Hneg | Hnn].
      { rewrite !Z.testbit_neg_r by lia. reflexivity. }
      assert (Hb : Z.testbit (Z.lxor x (Z.shiftr x s)) i
                   = Z.testbit (Z.lxor y (Z.shiftr y s)) i)
        by (rewrite H; reflexivity).
      rewrite !Z.lxor_spec, !Z.shiftr_spec in Hb by lia.
      rewrite (IH (i + s)) in Hb by lia.
      destruct (Z.testbit x i), (Z.testbit y i), (Z.testbit y (i + s));
        cbn in Hb; congruence. }
  apply Z.bits_inj'. intros i Hi.
  apply (Hbits (Z.to_nat 32)). lia.
Qed.

Lemma add32_inj (c a b : Z) :
  add32 a c = add32 b c -> a mod 2 ^ 32 = b mod 2 ^ 32.
Proof.
  unfold add32, u32, modulus. intros H.
  assert (Ha : forall x, x mod 2 ^ 32 = ((x + c) mod 2 ^ 32 - c) mod 2 ^ 32).
  { intros x. rewrite Zminus_mod_idemp_l. f_equal. lia. }
  rewrite (Ha a), (Ha b), H. reflexivity.
Qed.

Lemma rotl32_range (r x : Z) :
  0 < r < 32 -> 0 <= x < 2 ^ 32 -> 0 <= Reference.rotl32 x r < 2 ^ 32.
Proof.
  intros Hr Hx. unfold Reference.rotl32.
  assert (Hp : 2 ^ 32 = 2 ^ (32 - r) * 2 ^ r)
    by (rewrite <- Z.pow_add_r by lia; f_equal; lia).
  assert (Hr0 : 0 < 2 ^ r) by (apply Z.pow_pos_nonneg; lia).
  assert (Hs0 : 0 < 2 ^ (32 - r)) by (apply Z.pow_pos_nonneg; lia).
  rewrite Hp in *. rewrite Z.mul_mod_distr_r by lia.
  pose proof (Z.mod_pos_bound x (2 ^ (32 - r)) Hs0) as Bm.
  assert (Bq : 0 <= x / 2 ^ (32 - r) < 2 ^ r).
  { split; [apply Z.div_pos; lia |].
    apply Z.div_lt_upper_bound; lia. }
  split; [nia |].
  assert ((x mod 2 ^ (32 - r)) * 2 ^ r <= (2 ^ (32 - r) - 1) * 2 ^ r)
    by (apply Z.mul_le_mono_nonneg_r; lia).
  lia.
Qed.

Lemma mod_small_eq (a b : Z) :
  0 <= a < 2 ^ 32 -> 0 <= b < 2 ^ 32 ->
  a mod 2 ^ 32 = b mod 2 ^ 32 -> a = b.
Proof. intros Ha Hb. rewrite !Z.mod_small by assumption. auto. Qed.

Lemma murmur3_scramble_inj (k k' : Z) :
  0 <= k < 2 ^ 32 -> 0 <= k' < 2 ^ 32 ->
  Reference.murmur3_scramble k = Reference.murmur3_scramble k' -> k = k'.
Proof.
  intros Hk Hk' H. unfold Reference.murmur3_scramble in H.
  apply (mul32_inj Reference.c2 0x56ed309b) in H; [| reflexivity].
  apply mod_small_eq in H;
    try (apply rotl32_range; [lia | apply Z.mod_pos_bound; lia]).
  apply rotl32_inj in H; try lia; try (apply Z.mod_pos_bound; lia).
  apply (mul32_inj Reference.c1 0xdee13bb1) in H; [| reflexivity].
  apply mod_small_eq; assumption.
Qed.

Lemma murmur3_scramble_range (k : Z) :
  0 <= Reference.murmur3_scramble k < 2 ^ 32.
Proof. unfold Reference.murmur3_scramble. apply Z.mod_pos_bound. lia. Qed.

(** what the mix keeps: the xor of the state and the scrambled word *)
Lemma murmur3_mix_inj (h k h' k' : Z) :
  0 <= h < 2 ^ 32 -> 0 <= h' < 2 ^ 32 ->
  Reference.murmur3_mix h k = Reference.murmur3_mix h' k' ->
  Z.lxor h (Reference.murmur3_scramble k)
  = Z.lxor h' (Reference.murmur3_scramble k').
Proof.
  intros Hh Hh' H. unfold Reference.murmur3_mix in H.
  apply (add32_inj 0xe6546b64) in H.
  apply (mul32_inj 5 0xcccccccd) in H; [| reflexivity].
  assert (R : forall a b, 0 <= a < 2 ^ 32 ->
            0 <= Z.lxor a (Reference.murmur3_scramble b) < 2 ^ 32)
    by (intros; apply lxor_u32_range;
        [assumption | apply murmur3_scramble_range]).
  apply mod_small_eq in H;
    try (apply rotl32_range; [lia | apply R; assumption]).
  apply rotl32_inj in H;
    [exact H | lia | apply R; assumption | apply R; assumption].
Qed.

Lemma murmur3_round_inj_word (h k k' : Z) :
  0 <= h < 2 ^ 32 -> 0 <= k < 2 ^ 32 -> 0 <= k' < 2 ^ 32 ->
  murmur3_round h k = murmur3_round h k' -> k = k'.
Proof.
  intros Hh Hk Hk' H. rewrite !murmur3_round_ref in H by assumption.
  apply murmur3_mix_inj in H; try assumption.
  apply lxor_cancel_l in H. apply murmur3_scramble_inj; assumption.
Qed.

Lemma murmur3_round_inj_state (h h' k : Z) :
  0 <= h < 2 ^ 32 -> 0 <= h' < 2 ^ 32 ->
  murmur3_round h k = murmur3_round h' k -> h = h'.
Proof.
  intros Hh Hh' H. rewrite !murmur3_round_ref in H by assumption.
  apply murmur3_mix_inj in H; try assumption.
  apply lxor_cancel_r in H. exact H.
Qed.

Lemma murmur3_loop_range (data : list Z) :
  forall h, 0 <= h < 2 ^ 32 -> 0 <= murmur3_loop data h < 2 ^ 32.
Proof.
  induction data as [| k rest IH]; intros h Hh; cbn; [exact Hh |].
  apply IH, murmur3_round_range.
Qed.

Lemma murmur3_loop_app (a b : list Z) :
  forall h, murmur3_loop (a ++ b) h = murmur3_loop b (murmur3_loop a h).
Proof.
  induction a as [| k rest IH]; intros h; cbn; [reflexivity | apply IH].
Qed.

Lemma murmur3_loop_inj_state (data : list Z) :
  forall h h', 0 <= h < 2 ^ 32 -> 0 <= h' < 2 ^ 32 ->
    murmur3_loop data h = murmur3_loop data h' -> h = h'.
Proof.
  induction data as [| k rest IH]; intros h h' Hh Hh' H; cbn in H;
    [exact H |].
  apply IH in H; try apply murmur3_round_range.
  apply murmur3_round_inj_state in H; assumption.
Qed.

Lemma shiftr_u32_range (x s : Z) :
  0 <= s -> 0 <= x < 2 ^ 32 -> 0 <= Z.shiftr x s < 2 ^ 32.
Proof.
  intros Hs Hx. rewrite Z.shiftr_div_pow2 by lia.
  assert (0 < 2 ^ s) by (apply Z.pow_pos_nonneg; lia).
  split; [apply Z.div_pos; lia |].
  apply Z.div_lt_upper_bound; [lia |]. nia.
Qed.

Lemma murmur3_tail_inj (size h h' : Z) :
  0 <= h < 2 ^ 32 -> 0 <= h' < 2 ^ 32 ->
  murmur3_tail h size = murmur3_tail h' size -> h = h'.
Proof.
  intros Hh Hh' H. unfold murmur3_tail in H. cbv zeta in H.
  assert (X : forall a, 0 <= a < 2 ^ 32 ->
            0 <= Z.lxor a (Z.shiftr a 16) < 2 ^ 32)
    by (intros; apply lxor_u32_range;
        [assumption | apply shiftr_u32_range; [lia | assumption]]).
  assert (Y : forall a, 0 <= a < 2 ^ 32 ->
            0 <= Z.lxor a (Z.shiftr a 13) < 2 ^ 32)
    by (intros; apply lxor_u32_range;
        [assumption | apply shiftr_u32_range; [lia | assumption]]).
  assert (L : forall a, 0 <= a < 2 ^ 32 ->
            0 <= Z.lxor a (u32 (size * 4)) < 2 ^ 32)
    by (intros; apply lxor_u32_range; [assumption | apply u32_range]).
  apply xorshift_inj in H; try lia; try apply u32_range.
  apply (mul32_inj 0xc2b2ae35 0x7ed1b41d) in H; [| reflexivity].
  apply mod_small_eq in H; try (apply Y, u32_range).
  apply xorshift_inj in H; try lia; try apply u32_range.
  apply (mul32_inj 0x85ebca6b 0xa5cb9243) in H; [| reflexivity].
  apply mod_small_eq in H; try (apply X, L; assumption).
  apply xorshift_inj in H; try lia; try (apply L; assumption).
  apply lxor_cancel_r in H. exact H.
Qed.

Lemma murmur3_32_tail (data : list Z) (size : Z) :
  murmur3_32 data size
  = murmur3_tail (murmur3_loop (firstn (Z.to_nat size) data) 0) size.
Proof. reflexivity. Qed.

(** Changing one word of the input changes the hash. *)
Lemma murmur3_32_one_word (pre post : list Z) (k k' : Z) :
  0 <= k < 2 ^ 32 -> 0 <= k' < 2 ^ 32 -> k <> k' ->
  murmur3_32 (pre ++ k :: post) (Z.of_nat (length (pre ++ k :: post)))
  <> murmur3_32 (pre ++ k' :: post) (Z.of_nat (length (pre ++ k' :: post))).
Proof.
  intros Hk Hk' Hne H.
  rewrite !murmur3_32_tail, !firstn_length_all in H.
  replace (length (pre ++ k' :: post)) with (length (pre ++ k :: post)) in H
    by (rewrite !length_app; reflexivity).
  apply murmur3_tail_inj in H; try (apply murmur3_loop_range; lia).
  rewrite !murmur3_loop_app in H. cbn [murmur3_loop] in H.
  apply murmur3_loop_inj_state in H; try apply murmur3_round_range.
  apply murmur3_round_inj_word in H;
    try assumption; try (apply murmur3_loop_range; lia).
  contradiction.
Qed.

(** ** Two lists that differ at one index *)

Lemma differ_at_one {A : Type} (l : list A) :
  forall (l' : list A) (i : nat),
    length l = length l' ->
    (forall j, j <> i -> nth_error l j = nth_error l' j) ->
    nth_error l i <> nth_error l' i ->
    exists (pre post : list A) (a a' : A),
      l = pre ++ a :: post /\ l' = pre ++ a' :: post /\ a <> a'.
Proof.
  induction l as [| x xs IH]; intros l' i Hlen Hsame Hdiff.
  - destruct l'; [| discriminate]. destruct i; contradiction.
  - destruct l' as [| y ys]; [discriminate |].
    destruct i as [| i].
    + exists [], xs, x, y. cbn in Hdiff.
      assert (xs = ys).
      { apply nth_error_ext. intros n.
        apply (Hsame (S n)). discriminate. }
      subst. repeat split. congruence.
    + assert (x = y).
      { specialize (Hsame 0%nat). cbn in Hsame.
        assert (Some x = Some y) by (apply Hsame; discriminate).
        congruence. }
      subst y.
      destruct (IH ys i) as (pre & post & a & a' & -> & -> & Hne).
      * cbn in Hlen. lia.
      * intros j Hj. apply (Hsame (S j)). lia.
      * exact Hdiff.
      * exists (x :: pre), post, a, a'. repeat split. exact Hne.
Qed.

Lemma Forall_middle {A : Type} (P : A -> Prop) (pre post : list A) (a : A) :
  Forall P (pre ++ a :: post) -> P a.
Proof.
  intros H. rewrite Forall_forall in H. apply H.
  apply in_or_app. right. left. reflexivity.
Qed.

(** ** FNV-1a *)

Lemma fnv1a_loop_range (data : list Z) :
  forall h, 0 <= h < 2 ^ 32 -> 0 <= fnv1a_loop data h < 2 ^ 32.
Proof.
  induction data as [| b rest IH]; intros h Hh; cbn; [exact Hh |].
  apply IH, u32_range.
Qed.

Lemma fnv1a_loop_app (a b : list Z) :
  forall h, fnv1a_loop (a ++ b) h = fnv1a_loop b (fnv1a_loop a h).
Proof.
  induction a as [| k rest IH]; intros h; cbn; [reflexivity | apply IH].
Qed.

(** one step keeps the xor of the state and the byte *)
Lemma fnv1a_step_inj (h b h' b' : Z) :
  0 <= h < 2 ^ 32 -> 0 <= h' < 2 ^ 32 ->
  0 <= b < 256 -> 0 <= b' < 256 ->
  mul32 (Z.lxor h b) 0x01000193 = mul32 (Z.lxor h' b') 0x01000193 ->
  Z.lxor h b = Z.lxor h' b'.
Proof.
  intros Hh Hh' Hb Hb' H.
  apply (mul32_inj 0x01000193 0x359c449b) in H; [| reflexivity].
  apply mod_small_eq in H; [exact H | |]; apply lxor_u32_range; lia.
Qed.

Lemma fnv1a_loop_inj_state (data : list Z) :
  Forall (fun b => 0 <= b < 256) data ->
  forall h h', 0 <= h < 2 ^ 32 -> 0 <= h' < 2 ^ 32 ->
    fnv1a_loop data h = fnv1a_loop data h' -> h = h'.
Proof.
  induction 1 as [| b rest Hb _ IH]; intros h h' Hh Hh' H; cbn in H;
    [exact H |].
  apply IH in H; try apply u32_range.
  apply fnv1a_step_inj in H; try assumption.
  apply lxor_cancel_r in H. exact H.
Qed.

Lemma fnv1a_32_one_byte (pre post : list Z) (b b' : Z) :
  Forall (fun x => 0 <= x < 256) post ->
  0 <= b < 256 -> 0 <= b' < 256 -> b <> b' ->
  fnv1a_32 (pre ++ b :: post) (Z.of_nat (length (pre ++ b :: post)))
  <> fnv1a_32 (pre ++ b' :: post) (Z.of_nat (length (pre ++ b' :: post))).
Proof.
  intros Hpost Hb Hb' Hne H.
  unfold fnv1a_32 in H. rewrite !firstn_length_all in H.
  rewrite !fnv1a_loop_app in H. cbn [fnv1a_loop] in H.
  apply fnv1a_loop_inj_state in H; try assumption; try apply u32_range.
  apply fnv1a_step_inj in H; try assumption;
    try (apply fnv1a_loop_range; lia).
  apply lxor_cancel_l in H. contradiction.
Qed.

(** X1.  For every input and every [size], also a negative one, both hashes
    return a value of 32 bits. *)
Theorem hashes_are_32_bit :
  forall (data : list Z) (size : Z),
    0 <= murmur3_32 data size < 2 ^ 32
    /\ 0 <= fnv1a_32 data size < 2 ^ 32.
Proof.
  intros data size. split.
  - rewrite murmur3_32_tail. unfold murmur3_tail. cbv zeta.
    apply lxor_u32_range; [apply u32_range |].
    apply shiftr_u32_range; [lia | apply u32_range].
  - unfold fnv1a_32. apply fnv1a_loop_range. lia.
Qed.

(** X3.  Two arrays of words of the same length that differ at exactly one
    index have different Murmur3 hashes. *)
Theorem murmur3_32_one_word_changes_hash :
  forall (data data' : list Z) (i : nat),
    length data = length data' ->
    Forall (fun w => 0 <= w < 2 ^ 32) data ->
    Forall (fun w => 0 <= w < 2 ^ 32) data' ->
    (forall j, j <> i -> nth_error data j = nth_error data' j) ->
    nth_error data i <> nth_error data' i ->
    murmur3_32 data (Z.of_nat (length data))
    <> murmur3_32 data' (Z.of_nat (length data')).
Proof.
  intros data data' i Hlen Hr Hr' Hsame Hdiff.
  destruct (differ_at_one data data' i Hlen Hsame Hdiff)
    as (pre & post & k & k' & -> & -> & Hne).
  apply murmur3_32_one_word; try assumption.
  - exact (Forall_middle _ _ _ _ Hr).
  - exact (Forall_middle _ _ _ _ Hr').
Qed.

(** X2.  Two arrays of bytes of the same length that differ at exactly one
    index have different FNV-1a hashes. *)
Theorem fnv1a_32_one_byte_changes_hash :
  forall (data data' : list Z) (i : nat),
    length data = length data' ->
    Forall (fun b => 0 <= b < 256) data ->
    Forall (fun b => 0 <= b < 256) data' ->
    (forall j, j <> i -> nth_error data j = nth_error data' j) ->
    nth_error data i <> nth_error data' i ->
    fnv1a_32 data (Z.of_nat (length data))
    <> fnv1a_32 data' (Z.of_nat (length data')).
Proof.
  intros data data' i Hlen Hr Hr' Hsame Hdiff.
  destruct (differ_at_one data data' i Hlen Hsame Hdiff)
    as (pre & post & k & k' & -> & -> & Hne).
  apply fnv1a_32_one_byte; try assumption.
  - apply Forall_app in Hr. destruct Hr as [_ Hr].
    inversion Hr; assumption.
  - exact (Forall_middle _ _ _ _ Hr).
  - exact (Forall_middle _ _ _ _ Hr').
Qed.

(** ** The digest *)

Lemma encode_opt_bits (opt : Option) :
  Z.testbit (encode_opt opt) 7 = use_image_storage opt
  /\ Z.testbit (encode_opt opt) 6 = use_fp16_packed opt
  /\ Z.testbit (encode_opt opt) 5 = use_fp16_storage opt
  /\ Z.testbit (encode_opt opt) 4 = use_fp16_arithmetic opt
  /\ Z.testbit (encode_opt opt) 3 = use_int8_storage opt
  /\ Z.testbit (encode_opt opt) 2 = use_int8_arithmetic opt
  /\ Z.testbit (encode_opt opt) 1 = false
  /\ Z.testbit (encode_opt opt) 0 = false.
Proof. destruct opt as [[] [] [] [] [] []]; repeat split. Qed.

Lemma encode_opt_inj (o1 o2 : Option) :
  encode_opt o1 = encode_opt o2 -> o1 = o2.
Proof.
  intros H.
  destruct (encode_opt_bits o1) as (A7 & A6 & A5 & A4 & A3 & A2 & _).
  destruct (encode_opt_bits o2) as (B7 & B6 & B5 & B4 & B3 & B2 & _).
  rewrite H in A7, A6, A5, A4, A3, A2.
  destruct o1, o2. cbn in *. congruence.
Qed.

(** X5.  The six flags are bits 7 to 2 of the packed element, its two low
    bits are clear, it fits eight bits, and two different sets of flags
    never pack to the same element. *)
Theorem encode_opt_keeps_flags :
  forall (elem_bits : Z) (opt opt' : Option),
    8 <= elem_bits ->
    let v := store_elem elem_bits (encode_opt opt) in
    0 <= v < 256
    /\ Z.testbit v 7 = use_image_storage opt
    /\ Z.testbit v 6 = use_fp16_packed opt
    /\ Z.testbit v 5 = use_fp16_storage opt
    /\ Z.testbit v 4 = use_fp16_arithmetic opt
    /\ Z.testbit v 3 = use_int8_storage opt
    /\ Z.testbit v 2 = use_int8_arithmetic opt
    /\ Z.testbit v 1 = false
    /\ Z.testbit v 0 = false
    /\ (v = store_elem elem_bits (encode_opt opt') -> opt = opt').
Proof.
  intros w opt opt' Hw v. unfold v.
  rewrite !store_elem_small by (first [exact Hw | apply encode_opt_range]).
  split; [apply encode_opt_range |].
  pose proof (encode_opt_bits opt) as B.
  repeat (split; [apply B |]).
  apply encode_opt_inj.
Qed.

Lemma digest_eqb_true (a b : pipeline_cache_digest) :
  digest_eqb a b = true <->
  shader_type_index a = shader_type_index b
  /\ opt_local_size_bits a = opt_local_size_bits b
  /\ specializations_murmur3 a = specializations_murmur3 b
  /\ specializations_fnv1a a = specializations_fnv1a b.
Proof.
  unfold digest_eqb. rewrite !andb_true_iff, !Z.eqb_eq.
  destruct (list_eq_dec Z.eq_dec (opt_local_size_bits a)
              (opt_local_size_bits b)) as [E | N].
  - intuition.
  - split; [intros [[[_ H] _] _]; discriminate | intros (_ & H & _)].
    contradiction.
Qed.

Lemma store_elem_fits (elem_bits v : Z) :
  0 <= v < 2 ^ elem_bits -> store_elem elem_bits v = v.
Proof. intros H. unfold store_elem. apply Z.mod_small. exact H. Qed.

(** X6.  Two requests with equal digests, of local sizes that fit an element
    of the digest, have the same shader type index, the same option
    flags and the same local size. *)
Theorem equal_digests_same_request :
  forall (elem_bits : Z) (idx idx' : Z) (opt opt' : Option)
         (specs specs' : specialization_list)
         (lx ly lz lx' ly' lz' : Z),
    8 <= elem_bits ->
    Forall (fun l => 0 <= l < 2 ^ elem_bits) [lx; ly; lz; lx'; ly'; lz'] ->
    digest_eqb (make_digest elem_bits idx opt specs lx ly lz)
               (make_digest elem_bits idx' opt' specs' lx' ly' lz') = true ->
    idx = idx' /\ opt = opt' /\ lx = lx' /\ ly = ly' /\ lz = lz'.
Proof.
  intros w idx idx' opt opt' specs specs' lx ly lz lx' ly' lz' Hw Hfit H.
  apply digest_eqb_true in H. cbn in H.
  destruct H as (Hidx & Hbits & _).
  injection Hbits as Ho Hx Hy Hz.
  repeat match goal with
         | F : Forall _ (_ :: _) |- _ => inversion F; subst; clear F
         end.
  rewrite !store_elem_small in Ho
    by (first [exact Hw | apply encode_opt_range]).
  rewrite !store_elem_fits in Hx, Hy, Hz by assumption.
  repeat split; try assumption. apply encode_opt_inj. exact Ho.
Qed.

(** X4.  Two requests that differ in exactly one specialization constant, of a
    number that fits an [int], have digests that are not equal. *)
Theorem one_specialization_changes_digest :
  forall (elem_bits : Z) (idx : Z) (opt : Option)
         (specs specs' : specialization_list) (lx ly lz : Z) (i : nat),
    Z.of_nat (length specs) <= INT_MAX ->
    length specs = length specs' ->
    Forall (fun w => 0 <= w < 2 ^ 32) specs ->
    Forall (fun w => 0 <= w < 2 ^ 32) specs' ->
    (forall j, j <> i -> nth_error specs j = nth_error specs' j) ->
    nth_error specs i <> nth_error specs' i ->
    let key := make_digest elem_bits idx opt specs lx ly lz in
    let key' := make_digest elem_bits idx opt specs' lx ly lz in
    specializations_murmur3 key <> specializations_murmur3 key'
    /\ digest_eqb key key' = false
    /\ (forall digests : list pipeline_cache_digest,
          find_digest key' digests 0 = None ->
          find_digest key' (digests ++ [key]) 0 = None).
Proof.
  intros w idx opt specs specs' lx ly lz i Hfit Hlen Hr Hr' Hsame Hdiff
    key key'.
  assert (Hm : specializations_murmur3 key <> specializations_murmur3 key').
  { unfold key, key'. cbn [specializations_murmur3 make_digest].
    rewrite <- Hlen.
    rewrite to_int_small by lia.
    rewrite Hlen at 2.
    destruct (differ_at_one specs specs' i Hlen Hsame Hdiff)
      as (pre & post & k & k' & -> & -> & Hne).
    apply murmur3_32_one_word; try assumption.
    - exact (Forall_middle _ _ _ _ Hr).
    - exact (Forall_middle _ _ _ _ Hr'). }
  assert (Hneq : digest_eqb key key' = false).
  { destruct (digest_eqb key key') eqn:E; [| reflexivity].
    apply digest_eqb_true in E. destruct E as (_ & _ & E & _).
    contradiction. }
  split; [exact Hm |]. split; [exact Hneq |].
  intros digests Hnone.
  rewrite find_digest_none in *.
  intros d Hin. apply in_app_or in Hin.
  destruct Hin as [Hin | [<- | []]]; [apply Hnone; exact Hin | exact Hneq].
Qed.

(** ** More on the choice of the variant *)

(** X7.  The offset of the variant has a closed form: 5 for image storage,
    plus 3 for fp16 storage or else 1 for packed fp16, plus 1 for fp16
    arithmetic when one of the two fp16 forms is taken; each part needs
    the request and the device to agree.  So the offset is between 0 and
    9, fp16 storage wins over packed fp16, and fp16 arithmetic alone
    changes nothing. *)
Theorem select_shader_type_index_closed_form :
  forall (vkdev : VulkanDevice.t) (opt : Option) (idx : Z),
    let info := VulkanDevice.info vkdev in
    let image := DecisionTable.image info opt in
    let fp16s := DecisionTable.fp16s info opt in
    let fp16p := DecisionTable.fp16p info opt in
    let fp16a := DecisionTable.fp16a info opt in
    let offset := select_shader_type_index vkdev opt idx - idx in
    offset
    = 5 * Z.b2z image
      + (if fp16s then 3 + Z.b2z fp16a
         else if fp16p then 1 + Z.b2z fp16a
         else 0)
    /\ 0 <= offset <= 9
    /\ (fp16s = false -> fp16p = false -> offset = 5 * Z.b2z image).
Proof.
  intros vkdev opt idx info image fp16s fp16p fp16a offset.
  assert (Hform : offset
                  = 5 * Z.b2z image
                    + (if fp16s then 3 + Z.b2z fp16a
                       else if fp16p then 1 + Z.b2z fp16a
                       else 0)).
  { unfold offset. rewrite select_shader_type_index_table. fold info.
    unfold DecisionTable.variant_offset, DecisionTable.rules,
      DecisionTable.first_match.
    fold image fp16s fp16p fp16a.
    destruct image, fp16s, fp16p, fp16a; cbn; lia. }
  split; [exact Hform |]. split.
  - rewrite Hform. destruct image, fp16s, fp16p, fp16a; cbn; lia.
  - intros Hs Hp. rewrite Hform, Hs, Hp. lia.
Qed.

(** ** More on [create_shader_module] *)

(** X8.  [create_shader_module] destroys nothing and returns 0 or -1.  When it
    returns 0 the module it hands out is not null and is the one handle
    it created; when it returns -1 it created nothing and left the out
    pointer as it was.  On precompiled shaders the [ShaderInfo] is
    overwritten with the one of the variant in both cases. *)
Theorem create_shader_module_outcome :
  forall (NCNN_VULKAN_ONLINE_SPIRV : bool) (gpu : Gpu.t)
         (vkdev : VulkanDevice.t) (idx : Z) (opt : Option) (lx ly lz : Z)
         (sm : VkHandle) (si : ShaderInfo) (t : trace),
  exists (r : Z) (sm' : VkHandle) (si' : ShaderInfo) (es : trace),
    create_shader_module NCNN_VULKAN_ONLINE_SPIRV gpu vkdev
      idx opt lx ly lz sm si t = ((r, sm', si'), t ++ es)
    /\ destroyed_handles es = []
    /\ ((r = 0 /\ non_null sm' = true
         /\ created_handles es = [(ShaderModule, sm')])
        \/ (r = -1 /\ sm' = sm /\ created_handles es = []))
    /\ (NCNN_VULKAN_ONLINE_SPIRV = false ->
        si' = Gpu.get_shader_info gpu
                (select_shader_type_index vkdev opt idx))
    /\ (NCNN_VULKAN_ONLINE_SPIRV = true ->
        fst (Gpu.compile_spirv_module gpu idx opt) <> 0 ->
        r = -1 /\ si' = si
        /\ es = [EvCompileSpirvModule
                   (fst (Gpu.compile_spirv_module gpu idx opt))]).
Proof.
  intros online gpu vkdev idx opt lx ly lz sm si t.
  destruct (create_shader_module_run online gpu vkdev idx opt lx ly lz
              sm si t) as (r & sm' & si' & es & Heq & Hd & Hc).
  exists r, sm', si', es.
  split; [exact Heq |]. split; [exact Hd |]. split; [exact Hc |].
  split.
  - intros ->.
    unfold create_shader_module, create_shader_module_finish,
      vk_shader_module, bind, ask, emit, ret in Heq.
    destruct (negb (non_null _)) in Heq; injection Heq as _ _ Hsi _;
      symmetry; exact Hsi.
  - intros -> Hfail.
    unfold create_shader_module, bind, emit, ret in Heq.
    destruct (Gpu.compile_spirv_module gpu idx opt) as [retc spirv].
    cbn [fst] in *.
    destruct (Z.eqb_spec retc 0) as [-> | _]; [contradiction |].
    cbn [negb] in Heq.
    injection Heq as Hr _ Hsi Ht. apply app_inv_head in Ht.
    subst. repeat split.
Qed.

(** ** More on [new_pipeline] *)

(** X9.  When [new_pipeline] returns 0 the count of specialization constants
    matched, and its events are the creations, in order, of the
    descriptor-set layout, of the pipeline layout from that layout, of
    the pipeline from the caller's shader module and that pipeline
    layout, and, on a device with update templates only, of the update
    template; the out parameters hold exactly the handles the device
    answered, the update template being null on a device without. *)
Theorem new_pipeline_success :
  forall (vkdev : VulkanDevice.t) (sm : VkHandle) (si : ShaderInfo)
         (specs : specialization_list) (outs outs' : new_pipeline_outs)
         (t es : trace),
    new_pipeline vkdev sm si specs outs t = ((0, outs'), t ++ es) ->
    let support :=
      support_VK_KHR_descriptor_update_template (VulkanDevice.info vkdev) in
    let dsl := out_descriptorset_layout outs' in
    let pl := out_pipeline_layout outs' in
    let p := out_pipeline outs' in
    let dut := out_descriptor_update_template outs' in
    let t1 := t ++ [EvCreate DescriptorSetLayout (Some dsl)] in
    let t2 := t1 ++ [EvCreate PipelineLayout (Some pl)] in
    let t3 := t2 ++ [EvCreate Pipeline (Some p)] in
    to_int (Z.of_nat (length specs)) = specialization_count si
    /\ VulkanDevice.create_descriptorset_layout vkdev t
         (binding_count si) (binding_types si) = Some dsl
    /\ VulkanDevice.create_pipeline_layout vkdev t1
         (push_constant_count si) dsl = Some pl
    /\ VulkanDevice.create_pipeline vkdev t2 sm pl specs = Some p
    /\ (if support
        then VulkanDevice.create_descriptor_update_template vkdev t3
               (binding_count si) (binding_types si) dsl pl = Some dut
        else dut = VK_NULL_HANDLE)
    /\ es = creation_events
              ([ (DescriptorSetLayout, dsl); (PipelineLayout, pl);
                 (Pipeline, p) ]
               ++ (if support then [(DescriptorUpdateTemplate, dut)]
                   else []))
    /\ destroyed_handles es = [].
Proof.
  intros vkdev sm si specs outs outs' t es Hrun.
  rewrite new_pipeline_run in Hrun.
  destruct (Z.eqb_spec (to_int (Z.of_nat (length specs)))
              (specialization_count si)) as [Hcount | _];
    cbn [negb] in Hrun; [| discriminate].
  destruct (VulkanDevice.create_descriptorset_layout vkdev t _ _)
    as [dsl0 |] eqn:E1; [| discriminate].
  cbv zeta in Hrun. cbn [creation_events map app fst snd] in Hrun.
  destruct (VulkanDevice.create_pipeline_layout vkdev _ _ _)
    as [pl0 |] eqn:E2; [| discriminate].
  destruct (VulkanDevice.create_pipeline vkdev _ _ _)
    as [p0 |] eqn:E3; [| discriminate].
  destruct (support_VK_KHR_descriptor_update_template _) eqn:Hs.
  - destruct (VulkanDevice.create_descriptor_update_template vkdev _ _ _)
      as [dut0 |] eqn:E4; [| discriminate].
    injection Hrun as Ho Ht. apply app_inv_head in Ht. subst.
    cbn. trace_norm. repeat split; assumption.
  - injection Hrun as Ho Ht. apply app_inv_head in Ht. subst.
    cbn. trace_norm. repeat split; assumption.
Qed.

Lemma new_pipeline_success_witness :
  to_int (Z.of_nat (length [5])) = 1
  /\ [ EvCreate DescriptorSetLayout (Some 100);
       EvCreate PipelineLayout (Some 101);
       EvCreate Pipeline (Some 102);
       EvCreate DescriptorUpdateTemplate (Some 103) ]
     = creation_events
         [ (DescriptorSetLayout, 100); (PipelineLayout, 101);
           (Pipeline, 102); (DescriptorUpdateTemplate, 103) ].
Proof.
  destruct (new_pipeline_success Scenario.good_device 7
              Scenario.the_shader_info [5] (mkObjects 1 2 3 4)
              (mkObjects 100 101 102 103) []
              [ EvCreate DescriptorSetLayout (Some 100);
                EvCreate PipelineLayout (Some 101);
                EvCreate Pipeline (Some 102);
                EvCreate DescriptorUpdateTemplate (Some 103) ]
              eq_refl)
    as (Hcount & _ & _ & _ & _ & Hes & _).
  split; [exact Hcount | exact Hes].
Defined.

(** The handles a successful [new_pipeline] created are the non-null
    ones among those it hands out, in the order of their creation. *)
Lemma new_pipeline_created (vkdev : VulkanDevice.t) (sm : VkHandle)
    (si : ShaderInfo) (specs : specialization_list)
    (outs outs' : new_pipeline_outs) (t es : trace) :
  new_pipeline vkdev sm si specs outs t = ((0, outs'), t ++ es) ->
  created_handles es
  = filter (fun c => non_null (snd c))
      [ (DescriptorSetLayout, out_descriptorset_layout outs');
        (PipelineLayout, out_pipeline_layout outs');
        (Pipeline, out_pipeline outs');
        (DescriptorUpdateTemplate, out_descriptor_update_template outs') ]
  /\ destroyed_handles es = [].
Proof.
  intros Hrun. rewrite new_pipeline_run in Hrun.
  destruct (negb _) in Hrun; [discriminate |].
  destruct (VulkanDevice.create_descriptorset_layout vkdev t _ _)
    as [dsl |]; [| discriminate].
  cbv zeta in Hrun.
  destruct (VulkanDevice.create_pipeline_layout vkdev _ _ _)
    as [pl |]; [| discriminate].
  destruct (VulkanDevice.create_pipeline vkdev _ _ _)
    as [p |]; [| discriminate].
  destruct (support_VK_KHR_descriptor_update_template _).
  - destruct (VulkanDevice.create_descriptor_update_template vkdev _ _ _)
      as [dut |]; [| discriminate].
    injection Hrun as Ho Ht. apply app_inv_head in Ht. subst.
    unfold created_handles, destroyed_handles. cbn.
    destruct (non_null dsl), (non_null pl), (non_null p), (non_null dut);
      split; reflexivity.
  - injection Hrun as Ho Ht. apply app_inv_head in Ht. subst.
    unfold created_handles, destroyed_handles. cbn.
    destruct (non_null dsl), (non_null pl), (non_null p);
      split; reflexivity.
Qed.

(** X10.  [new_pipeline] returns 0 or -1, and none of its events concerns a
    shader module: it never destroys the module it was given, also when
    it fails. *)
Theorem new_pipeline_leaves_shader_module :
  forall (vkdev : VulkanDevice.t) (sm : VkHandle) (si : ShaderInfo)
         (specs : specialization_list) (outs : new_pipeline_outs)
         (t : trace),
  exists (r : Z) (outs' : new_pipeline_outs) (es : trace),
    new_pipeline vkdev sm si specs outs t = ((r, outs'), t ++ es)
    /\ (r = 0 \/ r = -1)
    /\ (forall e, In e es ->
          exists k, event_resource e = Some k /\ k <> ShaderModule).
Proof.
  intros vkdev sm si specs outs t.
  rewrite new_pipeline_run.
  assert (Hin : forall es : trace,
             Forall (fun e => exists k, event_resource e = Some k
                                        /\ k <> ShaderModule) es ->
             forall e, In e es ->
               exists k, event_resource e = Some k /\ k <> ShaderModule)
    by (intros es H; apply Forall_forall; exact H).
  assert (Hc : forall k h, k <> ShaderModule ->
             exists k', event_resource (EvCreate k h) = Some k'
                        /\ k' <> ShaderModule)
    by (intros k h Hk; exists k; split; [reflexivity | exact Hk]).
  assert (Hd : forall k h, k <> ShaderModule ->
             exists k', event_resource (EvDestroy k h) = Some k'
                        /\ k' <> ShaderModule)
    by (intros k h Hk; exists k; split; [reflexivity | exact Hk]).
  destruct (negb _).
  { exists (-1), outs, []. rewrite app_nil_r.
    split; [reflexivity |]. split; [right; reflexivity |]. intros e []. }
  destruct (VulkanDevice.create_descriptorset_layout vkdev t _ _)
    as [dsl |].
  2:{ do 3 eexists. split; [reflexivity |]. split; [right; reflexivity |].
      apply Hin. cbn. repeat constructor; first [apply Hc | apply Hd];
        discriminate. }
  cbv zeta.
  destruct (VulkanDevice.create_pipeline_layout vkdev _ _ _) as [pl |].
  2:{ do 3 eexists. split; [reflexivity |]. split; [right; reflexivity |].
      apply Hin. unfold failed_run, rollback_events. cbn.
      destruct (non_null dsl); cbn;
        repeat constructor; first [apply Hc | apply Hd]; discriminate. }
  destruct (VulkanDevice.create_pipeline vkdev _ _ _) as [p |].
  2:{ do 3 eexists. split; [reflexivity |]. split; [right; reflexivity |].
      apply Hin. unfold failed_run, rollback_events. cbn.
      destruct (non_null dsl), (non_null pl); cbn;
        repeat constructor; first [apply Hc | apply Hd]; discriminate. }
  destruct (support_VK_KHR_descriptor_update_template _).
  2:{ do 3 eexists. split; [reflexivity |]. split; [left; reflexivity |].
      apply Hin. cbn. repeat constructor; apply Hc; discriminate. }
  destruct (VulkanDevice.create_descriptor_update_template vkdev _ _ _)
    as [dut |].
  { do 3 eexists. split; [reflexivity |]. split; [left; reflexivity |].
    apply Hin. cbn. repeat constructor; apply Hc; discriminate. }
  do 3 eexists. split; [reflexivity |]. split; [right; reflexivity |].
  apply Hin. unfold failed_run, rollback_events. cbn.
  destruct (non_null dsl), (non_null pl), (non_null p); cbn;
    repeat constructor; first [apply Hc | apply Hd]; discriminate.
Qed.

(** ** Who owns the handles *)

Lemma owned_handles_built (sm : VkHandle) (objects : new_pipeline_outs)
    (si : ShaderInfo) :
  non_null sm = true ->
  owned_handles (built_artifact sm objects si)
  = (ShaderModule, sm)
    :: filter (fun c => non_null (snd c))
         [ (DescriptorSetLayout, out_descriptorset_layout objects);
           (PipelineLayout, out_pipeline_layout objects);
           (Pipeline, out_pipeline objects);
           (DescriptorUpdateTemplate,
            out_descriptor_update_template objects) ].
Proof.
  intros Hsm. unfold owned_handles, built_artifact.
  cbn [filter snd shader_module descriptorset_layout pipeline_layout
       pipeline descriptor_update_template].
  rewrite Hsm. reflexivity.
Qed.

(** X11.  [get_pipeline] from SPIR-V words, when it returns -1, has destroyed
    every non-null handle it created, last created first, and has left
    the five handles of the out parameters as they were; when it returns
    0 it has destroyed nothing and the handles it created are the
    non-null ones it hands out: they are the caller's, no cache holds
    them. *)
Theorem get_pipeline_spv_accounting :
  forall (gpu : Gpu.t) (vkdev : VulkanDevice.t)
         (spv_data : list Z) (spv_data_size : Z)
         (specs : specialization_list) (lx ly lz : Z)
         (outs : get_pipeline_outs) (c : PipelineCache) (t : trace),
  exists (r : Z) (outs' : get_pipeline_outs) (es : trace),
    get_pipeline_spv gpu vkdev spv_data spv_data_size specs lx ly lz
      outs c t = ((r, outs', c), t ++ es)
    /\ ((r = -1
         /\ destroyed_handles es = rev (created_handles es)
         /\ out_shader_module outs' = out_shader_module outs
         /\ out_objects outs' = out_objects outs)
        \/ (r = 0
            /\ destroyed_handles es = []
            /\ non_null (out_shader_module outs') = true
            /\ created_handles es
               = owned_handles
                   (built_artifact (out_shader_module outs')
                      (out_objects outs') (out_shader_info outs')))).
Proof.
  intros gpu vkdev spv n specs lx ly lz outs c t.
  unfold get_pipeline_spv, vk_shader_module, vk_destroy, bind, ask, emit, ret.
  destruct (Gpu.resolve_shader_info gpu spv n (out_shader_info outs))
    as [ret0 si].
  destruct (negb (ret0 =? 0)).
  { do 3 eexists. split; [reflexivity |]. left. repeat split. }
  set (sm := VulkanDevice.compile_shader_module vkdev _ spv n lx ly lz).
  destruct (non_null sm) eqn:Hsm; cbn [negb].
  2:{ trace_norm. do 3 eexists. split; [reflexivity |]. left.
      repeat split. }
  cbn [out_objects].
  destruct (new_pipeline vkdev sm si specs (out_objects outs) _)
    as [[r2 objects] t2] eqn:Hnp.
  destruct (new_pipeline_effects vkdev sm si specs (out_objects outs)
              ((t ++ [EvResolveShaderInfo ret0])
                 ++ [EvCreate ShaderModule (Some sm)]))
    as (r2' & objects' & es2 & Hnp' & Hc2).
  rewrite Hnp in Hnp'. injection Hnp' as -> -> ->.
  destruct Hc2 as [(-> & Hd2 & _) | (-> & -> & Hd2)]; cbn [Z.eqb negb].
  - trace_norm. do 3 eexists. split; [reflexivity |]. right.
    destruct (new_pipeline_created _ _ _ _ _ _ _ _ Hnp) as [Hcr _].
    cbn [out_shader_module out_objects out_shader_info].
    repeat split.
    + unfold destroyed_handles in *. cbn. exact Hd2.
    + exact Hsm.
    + rewrite owned_handles_built by exact Hsm.
      unfold created_handles in *. cbn [flat_map app].
      rewrite Hsm. cbn [app]. f_equal. exact Hcr.
  - trace_norm. do 3 eexists. split; [reflexivity |]. left.
    cbn [out_shader_module out_objects]. repeat split.
    change (EvResolveShaderInfo ret0 :: EvCreate ShaderModule (Some sm)
              :: es2 ++ [EvDestroy ShaderModule sm])
      with ([EvResolveShaderInfo ret0; EvCreate ShaderModule (Some sm)]
              ++ es2 ++ [EvDestroy ShaderModule sm]).
    assert (C1 : created_handles
                   [EvResolveShaderInfo ret0;
                    EvCreate ShaderModule (Some sm)]
                 = [(ShaderModule, sm)])
      by (unfold created_handles; cbn; rewrite Hsm; reflexivity).
    rewrite !destroyed_handles_app, !created_handles_app, Hd2, C1.
    cbn [destroyed_handles created_handles flat_map app].
    rewrite app_nil_r. reflexivity.
Qed.

Lemma create_shader_module_precompiled_info (gpu : Gpu.t)
    (vkdev : VulkanDevice.t) (idx : Z) (opt : Option) (lx ly lz : Z)
    (sm : VkHandle) (si : ShaderInfo) (t : trace) :
  snd (fst (create_shader_module false gpu vkdev idx opt lx ly lz sm si t))
  = Gpu.get_shader_info gpu (select_shader_type_index vkdev opt idx).
Proof.
  unfold create_shader_module, create_shader_module_finish,
    vk_shader_module, bind, ask, emit, ret.
  destruct (negb (non_null _)); reflexivity.
Qed.

(** The handles a successful build created are the ones the stored
    artifact holds. *)
Lemma get_pipeline_built (NCNN_VULKAN_ONLINE_SPIRV : bool) (elem_bits : Z)
    (gpu : Gpu.t) (vkdev : VulkanDevice.t) (idx : Z) (opt : Option)
    (specs : specialization_list) (lx ly lz : Z)
    (outs : get_pipeline_outs) (c : PipelineCache) (t : trace) :
  let key := make_digest elem_bits idx opt specs lx ly lz in
  find_digest key (cache_digests c) 0 = None ->
  ~ build_fails NCNN_VULKAN_ONLINE_SPIRV gpu vkdev idx opt specs lx ly lz
      outs t ->
  exists (cc : pipeline_cache_artifact) (es : trace),
    get_pipeline NCNN_VULKAN_ONLINE_SPIRV elem_bits gpu vkdev
      idx opt specs lx ly lz outs c t
    = ((0, outs_of_artifact cc,
        mkCache (cache_digests c ++ [key]) (cache_artifacts c ++ [cc])),
       t ++ es)
    /\ created_handles es = owned_handles cc
    /\ destroyed_handles es = []
    /\ non_null (shader_module cc) = true
    /\ artifact_ok vkdev cc.
Proof.
  intros key Hmiss Hok.
  rewrite get_pipeline_run. cbv zeta. fold key. rewrite Hmiss.
  unfold build_fails in Hok.
  destruct (create_shader_module_run NCNN_VULKAN_ONLINE_SPIRV gpu vkdev
              idx opt lx ly lz VK_NULL_HANDLE (out_shader_info outs) t)
    as (r1 & sm & si & es1 & Hcsm & Hd1 & Hc1).
  rewrite Hcsm in *.
  destruct Hc1 as [(-> & Hsm & Hcr1) | (-> & _)];
    [| exfalso; apply Hok; left; discriminate].
  cbn [Z.eqb negb].
  destruct (new_pipeline_effects vkdev sm si specs (out_objects outs)
              (t ++ es1)) as (r2 & objects & es2 & Hnp & Hc2).
  rewrite Hnp in *. cbn [fst] in Hok.
  destruct Hc2 as [(-> & Hd2 & Hdut & _) | (-> & _)];
    [| exfalso; apply Hok; right; discriminate].
  cbn [Z.eqb negb].
  destruct (new_pipeline_created _ _ _ _ _ _ _ _ Hnp) as [Hcr2 _].
  exists (built_artifact sm objects si), (es1 ++ es2).
  rewrite outs_of_built_artifact, app_assoc.
  split; [reflexivity |].
  rewrite created_handles_app, destroyed_handles_app, Hcr1, Hcr2, Hd1, Hd2.
  rewrite owned_handles_built by exact Hsm.
  repeat split; [exact Hsm | exact Hdut].
Qed.

(** X12.  A miss whose build fails leaves the five handles of the out
    parameters as they were; on precompiled shaders the [ShaderInfo] of
    the out parameters is overwritten with the one of the selected
    variant all the same. *)
Theorem get_pipeline_failed_build_outputs :
  forall (NCNN_VULKAN_ONLINE_SPIRV : bool) (elem_bits : Z) (gpu : Gpu.t)
         (vkdev : VulkanDevice.t) (idx : Z) (opt : Option)
         (specs : specialization_list) (lx ly lz : Z)
         (outs : get_pipeline_outs) (c : PipelineCache) (t : trace),
    (forall d, In d (cache_digests c) ->
               digest_eqb d (make_digest elem_bits idx opt specs lx ly lz)
               = false) ->
    build_fails NCNN_VULKAN_ONLINE_SPIRV gpu vkdev idx opt specs lx ly lz
      outs t ->
    let outs' :=
      snd (fst (fst (get_pipeline NCNN_VULKAN_ONLINE_SPIRV elem_bits gpu
                       vkdev idx opt specs lx ly lz outs c t))) in
    out_shader_module outs' = out_shader_module outs
    /\ out_objects outs' = out_objects outs
    /\ (NCNN_VULKAN_ONLINE_SPIRV = false ->
        out_shader_info outs'
        = Gpu.get_shader_info gpu (select_shader_type_index vkdev opt idx)).
Proof.
  intros online w gpu vkdev idx opt specs lx ly lz outs c t Hmiss Hfail outs'.
  apply (find_digest_none _ _ 0%nat) in Hmiss.
  unfold outs'. rewrite get_pipeline_run. cbv zeta. rewrite Hmiss.
  unfold build_fails in Hfail.
  pose proof (create_shader_module_precompiled_info gpu vkdev idx opt
                lx ly lz VK_NULL_HANDLE (out_shader_info outs) t) as Hinfo.
  destruct (create_shader_module online gpu vkdev idx opt lx ly lz
              VK_NULL_HANDLE (out_shader_info outs) t)
    as [[[r1 sm] si] t1] eqn:Hcsm.
  destruct (negb (r1 =? 0)) eqn:Hr1.
  { cbn. repeat split. intros ->. rewrite Hcsm in Hinfo. exact Hinfo. }
  destruct (new_pipeline_effects vkdev sm si specs (out_objects outs) t1)
    as (r2 & objects & es2 & Hnp & Hc2).
  rewrite Hnp in *. cbn [fst] in Hfail.
  destruct Hc2 as [(-> & _) | (-> & -> & _)].
  - exfalso. destruct Hfail as [H | H]; [| apply H; reflexivity].
    apply H. apply negb_false_iff in Hr1. apply Z.eqb_eq. exact Hr1.
  - cbn. repeat split. intros ->. rewrite Hcsm in Hinfo. exact Hinfo.
Qed.

(** X13.  A miss whose build succeeds returns 0, appends the key of the
    request and one artifact, and hands out what that artifact holds;
    the handles it created are the non-null handles of the artifact,
    shader module first, and it destroyed nothing.  The key is then
    found at the index of the new entry. *)
Theorem get_pipeline_miss_builds_entry :
  forall (NCNN_VULKAN_ONLINE_SPIRV : bool) (elem_bits : Z) (gpu : Gpu.t)
         (vkdev : VulkanDevice.t) (idx : Z) (opt : Option)
         (specs : specialization_list) (lx ly lz : Z)
         (outs : get_pipeline_outs) (c : PipelineCache) (t : trace),
    let key := make_digest elem_bits idx opt specs lx ly lz in
    (forall d, In d (cache_digests c) -> digest_eqb d key = false) ->
    ~ build_fails NCNN_VULKAN_ONLINE_SPIRV gpu vkdev idx opt specs lx ly lz
        outs t ->
    exists (cc : pipeline_cache_artifact) (es : trace),
      get_pipeline NCNN_VULKAN_ONLINE_SPIRV elem_bits gpu vkdev
        idx opt specs lx ly lz outs c t
      = ((0, outs_of_artifact cc,
          mkCache (cache_digests c ++ [key]) (cache_artifacts c ++ [cc])),
         t ++ es)
      /\ created_handles es = owned_handles cc
      /\ destroyed_handles es = []
      /\ non_null (shader_module cc) = true
      /\ find_digest key (cache_digests c ++ [key]) 0
         = Some (length (cache_digests c)).
Proof.
  intros online w gpu vkdev idx opt specs lx ly lz outs c t key Hmiss Hok.
  apply (find_digest_none _ _ 0%nat) in Hmiss.
  destruct (get_pipeline_built online w gpu vkdev idx opt specs lx ly lz
              outs c t Hmiss Hok)
    as (cc & es & Heq & Hcr & Hd & Hsm & _).
  exists cc, es. repeat split; try assumption.
  apply (find_digest_appended key _ 0%nat Hmiss).
Qed.

(** ** The life of a cache *)

Section LifetimeFacts.

Variable NCNN_VULKAN_ONLINE_SPIRV : bool.
Variable elem_bits : Z.
Variable gpu : Gpu.t.
Variable vkdev : VulkanDevice.t.

Lemma cache_handles_app (c : PipelineCache) (cc : pipeline_cache_artifact)
    (ds : list pipeline_cache_digest) :
  cache_handles (mkCache ds (cache_artifacts c ++ [cc]))
  = cache_handles c ++ owned_handles cc.
Proof.
  unfold cache_handles. cbn [cache_artifacts].
  rewrite flat_map_app. cbn. rewrite app_nil_r. reflexivity.
Qed.

Lemma serve_keeps_balance (rq : request) (c : PipelineCache)
    (t es0 : trace) :
  cache_inv vkdev c -> balanced c es0 ->
  exists (r : Z) (outs' : get_pipeline_outs) (c' : PipelineCache)
         (es : trace),
    serve NCNN_VULKAN_ONLINE_SPIRV elem_bits gpu vkdev rq c (t ++ es0)
    = ((r, outs', c'), t ++ es0 ++ es)
    /\ cache_inv vkdev c' /\ balanced c' (es0 ++ es).
Proof.
  intros Hinv Hbal. unfold serve.
  set (key := make_digest elem_bits (rq_shader_type_index rq) (rq_opt rq)
                (rq_specializations rq) (rq_local_size_x rq)
                (rq_local_size_y rq) (rq_local_size_z rq)).
  destruct (get_pipeline_outcome NCNN_VULKAN_ONLINE_SPIRV elem_bits gpu vkdev
              (rq_shader_type_index rq) (rq_opt rq) (rq_specializations rq)
              (rq_local_size_x rq) (rq_local_size_y rq) (rq_local_size_z rq)
              (rq_outs rq) c (t ++ es0))
    as (r & outs' & c' & es & Heq & Hcases).
  fold key in Hcases. rewrite <- app_assoc in Heq.
  destruct Hcases as [(i & _ & _ & -> & -> & _)
                     | [(_ & _ & _ & -> & Hd)
                       | (Hmiss & Hok & _)]].
  - exists r, outs', c, [].
    split; [exact Heq |]. rewrite app_nil_r. split; assumption.
  - exists r, outs', c, es. split; [exact Heq |]. split; [exact Hinv |].
    unfold balanced in *.
    rewrite created_handles_app, destroyed_handles_app, Hd.
    rewrite <- app_assoc.
    rewrite (Permutation_app_comm (rev (created_handles es))).
    rewrite app_assoc.
    apply Permutation_app; [exact Hbal | apply Permutation_rev].
  - destruct (get_pipeline_built NCNN_VULKAN_ONLINE_SPIRV elem_bits gpu
                vkdev _ _ _ _ _ _ (rq_outs rq) c (t ++ es0) Hmiss Hok)
      as (cc & es' & Heq' & Hcr & Hd & _ & Hcc).
    rewrite <- app_assoc in Heq'.
    do 4 eexists. split; [exact Heq' |]. split.
    + destruct Hinv as [Hlen Hall]. split.
      * unfold same_length in *. cbn. rewrite !length_app, Hlen. reflexivity.
      * cbn. apply Forall_app. split; [exact Hall | constructor; auto].
    + unfold balanced in *.
      rewrite created_handles_app, destroyed_handles_app, Hcr, Hd.
      rewrite app_nil_r, cache_handles_app, app_assoc.
      apply Permutation_app_tail. exact Hbal.
Qed.

Lemma serve_all_keeps_balance (rqs : list request) :
  forall (c : PipelineCache) (t es0 : trace),
    cache_inv vkdev c -> balanced c es0 ->
    exists (c' : PipelineCache) (es : trace),
      serve_all NCNN_VULKAN_ONLINE_SPIRV elem_bits gpu vkdev rqs c (t ++ es0)
      = (c', t ++ es0 ++ es)
      /\ cache_inv vkdev c' /\ balanced c' (es0 ++ es).
Proof.
  induction rqs as [| rq rest IH]; intros c t es0 Hinv Hbal.
  - exists c, []. rewrite app_nil_r.
    split; [reflexivity | split; assumption].
  - cbn [serve_all]. unfold bind.
    destruct (serve_keeps_balance rq c t es0 Hinv Hbal)
      as (r & outs' & c1 & es1 & Heq & Hinv1 & Hbal1).
    rewrite Heq.
    destruct (IH c1 t (es0 ++ es1) Hinv1 Hbal1)
      as (c2 & es2 & Heq2 & Hinv2 & Hbal2).
    exists c2, (es1 ++ es2). rewrite <- app_assoc in Heq2, Hbal2.
    split; [exact Heq2 | split; assumption].
Qed.

Lemma artifact_teardown_handles (cc : pipeline_cache_artifact) :
  Permutation (destroyed_handles (artifact_teardown cc)) (owned_handles cc).
Proof.
  unfold artifact_teardown, owned_handles, destroyed_handles.
  cbn [filter snd fst].
  destruct (non_null (descriptor_update_template cc)),
    (non_null (pipeline cc)), (non_null (pipeline_layout cc)),
    (non_null (descriptorset_layout cc)), (non_null (shader_module cc));
    cbn [map flat_map app fst snd];
    apply NoDup_Permutation;
    try (repeat constructor; cbn; intuition discriminate);
    intros x; cbn; intuition.
Qed.

Lemma teardown_handles (artifacts : list pipeline_cache_artifact) :
  Permutation (destroyed_handles (flat_map artifact_teardown artifacts))
              (flat_map owned_handles artifacts).
Proof.
  induction artifacts as [| cc rest IH]; cbn [flat_map]; [constructor |].
  rewrite destroyed_handles_app.
  apply Permutation_app; [apply artifact_teardown_handles | exact IH].
Qed.

Lemma artifact_teardown_creates_nothing
    (artifacts : list pipeline_cache_artifact) :
  created_handles (flat_map artifact_teardown artifacts) = [].
Proof.
  induction artifacts as [| cc rest IH]; cbn [flat_map]; [reflexivity |].
  rewrite created_handles_app, IH, app_nil_r.
  unfold artifact_teardown, created_handles. cbn [filter snd fst].
  destruct (non_null (descriptor_update_template cc)),
    (non_null (pipeline cc)), (non_null (pipeline_layout cc)),
    (non_null (descriptorset_layout cc)), (non_null (shader_module cc));
    reflexivity.
Qed.

End LifetimeFacts.

(** X17.  A cache that is constructed, asked any requests by shader type
    index and destructed ends empty, and the handles destroyed during
    its life are the non-null handles created during it, each as many
    times as it was created: nothing is leaked and nothing is destroyed
    that was not created. *)
Theorem cache_lifetime_leaks_nothing :
  forall (NCNN_VULKAN_ONLINE_SPIRV : bool) (elem_bits : Z) (gpu : Gpu.t)
         (vkdev : VulkanDevice.t) (rqs : list request) (t : trace),
  exists es : trace,
    cache_lifetime NCNN_VULKAN_ONLINE_SPIRV elem_bits gpu vkdev rqs t
    = (empty_cache, t ++ es)
    /\ Permutation (created_handles es) (destroyed_handles es).
Proof.
  intros online w gpu vkdev rqs t.
  unfold cache_lifetime, PipelineCache_destructor, bind.
  destruct (serve_all_keeps_balance online w gpu vkdev rqs empty_cache t []
              (cache_inv_empty vkdev) (Permutation_refl _))
    as (c & es & Heq & [_ Hall] & Hbal).
  rewrite app_nil_r in Heq. cbn [app] in Heq, Hbal. rewrite Heq.
  unfold clear, bind, ret. rewrite (clear_loop_run vkdev _ Hall).
  exists (es ++ flat_map artifact_teardown (cache_artifacts c)).
  rewrite app_assoc. split; [reflexivity |].
  rewrite created_handles_app, destroyed_handles_app.
  rewrite artifact_teardown_creates_nothing, app_nil_r.
  unfold balanced in Hbal. rewrite Hbal.
  apply Permutation_app_head. symmetry. apply teardown_handles.
Qed.

(** X16.  After [clear] the cache is empty, so the destructor, or a second
    [clear], destroys nothing. *)
Theorem destructor_after_clear_destroys_nothing :
  forall (vkdev : VulkanDevice.t) (c : PipelineCache) (t t' : trace),
    PipelineCache_destructor vkdev (fst (clear vkdev c t)) t'
    = (empty_cache, t')
    /\ clear vkdev (fst (clear vkdev c t)) t' = (empty_cache, t').
Proof.
  intros vkdev c t t'. unfold PipelineCache_destructor.
  rewrite clear_cache. split; reflexivity.
Qed.

(** ** Entries stay where they are *)

Lemma find_digest_app_some (key : pipeline_cache_digest)
    (digests more : list pipeline_cache_digest) :
  forall (i0 j : nat),
    find_digest key digests i0 = Some j ->
    find_digest key (digests ++ more) i0 = Some j.
Proof.
  induction digests as [| d rest IH]; intros i0 j H; cbn in *.
  - discriminate.
  - destruct (digest_eqb d key); [exact H | apply IH; exact H].
Qed.

Lemma distinct_digests_snoc (digests : list pipeline_cache_digest)
    (key : pipeline_cache_digest) :
  distinct_digests digests ->
  (forall d, In d digests -> digest_eqb d key = false) ->
  distinct_digests (digests ++ [key]).
Proof.
  intros Hd Hmiss i j di dj Hij Hi Hj.
  assert (Hjlen : (j < length (digests ++ [key]))%nat)
    by (apply nth_error_Some; rewrite Hj; discriminate).
  rewrite length_app in Hjlen. cbn in Hjlen.
  rewrite nth_error_app1 in Hi by lia.
  destruct (Nat.eq_dec j (length digests)) as [-> | Hne].
  - rewrite nth_error_app2, Nat.sub_diag in Hj by lia.
    injection Hj as <-. apply Hmiss. eapply nth_error_In. exact Hi.
  - rewrite nth_error_app1 in Hj by lia.
    exact (Hd i j di dj Hij Hi Hj).
Qed.

(** X15.  In a cache of the program no two entries have equal digests: a key
    is stored at most once. *)
Theorem reachable_digests_distinct :
  forall (NCNN_VULKAN_ONLINE_SPIRV : bool) (elem_bits : Z) (gpu : Gpu.t)
         (vkdev : VulkanDevice.t) (c : PipelineCache),
    reachable NCNN_VULKAN_ONLINE_SPIRV elem_bits gpu vkdev c ->
    distinct_digests (cache_digests c).
Proof.
  intros online w gpu vkdev c Hreach.
  induction Hreach as [| c idx opt specs lx ly lz outs t Hc IH
                       | c spv n specs lx ly lz outs t Hc IH
                       | c t Hc IH].
  - intros i j di dj _ Hi. destruct i; discriminate.
  - destruct (get_pipeline_outcome online w gpu vkdev idx opt specs
                lx ly lz outs c t) as (r & outs' & c' & es & Heq & Hcases).
    rewrite Heq. cbn [fst snd].
    destruct Hcases as [(i & _ & _ & -> & _)
                       | [(_ & _ & _ & -> & _)
                         | (Hmiss & _ & _ & _ & cc & -> & _)]];
      try exact IH.
    cbn [cache_digests]. apply distinct_digests_snoc; [exact IH |].
    apply (find_digest_none _ _ 0%nat). exact Hmiss.
  - rewrite get_pipeline_spv_cache. exact IH.
  - rewrite clear_cache. intros i j di dj _ Hi. destruct i; discriminate.
Qed.

(** X14.  A request that hits keeps hitting, with the same out parameters and
    without a call, after any other request by shader type index was
    served in between. *)
Theorem hit_survives_requests :
  forall (NCNN_VULKAN_ONLINE_SPIRV : bool) (elem_bits : Z) (gpu : Gpu.t)
         (vkdev : VulkanDevice.t) (c : PipelineCache)
         (idx : Z) (opt : Option) (specs : specialization_list)
         (lx ly lz : Z)
         (idx' : Z) (opt' : Option) (specs' : specialization_list)
         (lx' ly' lz' : Z) (outs' : get_pipeline_outs) (t' : trace)
         (i : nat) (d : pipeline_cache_digest),
    same_length c ->
    nth_error (cache_digests c) i = Some d ->
    digest_eqb d (make_digest elem_bits idx opt specs lx ly lz) = true ->
    let lookup :=
      get_pipeline NCNN_VULKAN_ONLINE_SPIRV elem_bits gpu vkdev
        idx opt specs lx ly lz in
    let c' :=
      snd (fst (get_pipeline NCNN_VULKAN_ONLINE_SPIRV elem_bits gpu vkdev
                  idx' opt' specs' lx' ly' lz' outs' c t')) in
    exists o : get_pipeline_outs,
      forall (outs1 outs2 : get_pipeline_outs) (t1 t2 : trace),
        lookup outs1 c t1 = ((0, o, c), t1)
        /\ lookup outs2 c' t2 = ((0, o, c'), t2).
Proof.
  intros online w gpu vkdev c idx opt specs lx ly lz
    idx' opt' specs' lx' ly' lz' outs' t' i d Hlen Hn He lookup c'.
  set (key := make_digest w idx opt specs lx ly lz) in *.
  destruct (find_digest_hit key _ i d Hn He) as (j & Hf & Hle & _).
  assert (Hj : (j < length (cache_artifacts c))%nat).
  { unfold same_length in Hlen. rewrite <- Hlen.
    apply Nat.le_lt_trans with i; [exact Hle |].
    apply nth_error_Some. rewrite Hn. discriminate. }
  exists (outs_of_artifact (nth j (cache_artifacts c) null_artifact)).
  intros outs1 outs2 t1 t2. unfold lookup. split.
  - rewrite get_pipeline_run. cbv zeta. fold key. rewrite Hf. reflexivity.
  - rewrite get_pipeline_run. cbv zeta. fold key.
    destruct (get_pipeline_outcome online w gpu vkdev idx' opt' specs'
                lx' ly' lz' outs' c t')
      as (r & o' & c1 & es & Heq & Hcases).
    unfold c'. rewrite Heq. cbn [fst snd].
    destruct Hcases as [(_ & _ & _ & -> & _)
                       | [(_ & _ & _ & -> & _)
                         | (_ & _ & _ & _ & cc & -> & _)]];
      try (rewrite Hf; reflexivity).
    cbn [cache_digests cache_artifacts].
    rewrite (find_digest_app_some key _ _ 0%nat j Hf).
    rewrite app_nth1 by exact Hj. reflexivity.
Qed.

(** ** More runs on the scenario *)

(** two lists of three elements that differ in the middle *)
Lemma same_but_middle {A : Type} (a b b' c : A) :
  forall j : nat, j <> 1%nat ->
    nth_error [a; b; c] j = nth_error [a; b'; c] j.
Proof.
  intros j Hj. destruct j as [| [| j]]; [reflexivity | | reflexivity].
  exfalso. apply Hj. reflexivity.
Qed.

Lemma same_but_only {A : Type} (a a' : A) :
  forall j : nat, j <> 0%nat -> nth_error [a] j = nth_error [a'] j.
Proof.
  intros j Hj. destruct j as [| j]; [exfalso; apply Hj; reflexivity |].
  destruct j; reflexivity.
Qed.

Lemma fnv1a_32_one_byte_changes_hash_witness :
  fnv1a_32 [1; 2; 3] (Z.of_nat (length [1; 2; 3]))
  <> fnv1a_32 [1; 9; 3] (Z.of_nat (length [1; 9; 3])).
Proof.
  apply (fnv1a_32_one_byte_changes_hash [1; 2; 3] [1; 9; 3] 1).
  - reflexivity.
  - repeat constructor; lia.
  - repeat constructor; lia.
  - apply same_but_middle.
  - simpl. discriminate.
Defined.

Lemma murmur3_32_one_word_changes_hash_witness :
  murmur3_32 [1; 2; 3] (Z.of_nat (length [1; 2; 3]))
  <> murmur3_32 [1; 0xffffffff; 3] (Z.of_nat (length [1; 0xffffffff; 3])).
Proof.
  apply (murmur3_32_one_word_changes_hash [1; 2; 3] [1; 0xffffffff; 3] 1).
  - reflexivity.
  - repeat constructor; lia.
  - repeat constructor; lia.
  - apply same_but_middle.
  - simpl. discriminate.
Defined.

Lemma one_specialization_changes_digest_witness :
  digest_eqb (make_digest 8 3 Scenario.image_fp16sa [5] 8 8 1)
             (make_digest 8 3 Scenario.image_fp16sa [6] 8 8 1) = false.
Proof.
  apply (one_specialization_changes_digest 8 3 Scenario.image_fp16sa
           [5] [6] 8 8 1 0).
  - unfold INT_MAX. simpl. lia.
  - reflexivity.
  - repeat constructor; lia.
  - repeat constructor; lia.
  - apply same_but_only.
  - simpl. discriminate.
Defined.

Lemma encode_opt_keeps_flags_witness :
  store_elem 8 (encode_opt Scenario.image_fp16sa) = 176
  /\ Z.testbit (store_elem 8 (encode_opt Scenario.image_fp16sa)) 7 = true.
Proof.
  assert (Hw : 8 <= 8) by lia.
  destruct (encode_opt_keeps_flags 8 Scenario.image_fp16sa
              Scenario.image_fp16sa Hw) as (_ & H7 & _).
  split; [reflexivity | exact H7].
Defined.

Lemma equal_digests_same_request_witness :
  3 = 3 /\ Scenario.image_fp16sa = Scenario.image_fp16sa
  /\ 8 = 8 /\ 8 = 8 /\ 1 = 1.
Proof.
  apply (equal_digests_same_request 8 3 3 Scenario.image_fp16sa
           Scenario.image_fp16sa [5] [5] 8 8 1 8 8 1).
  - lia.
  - repeat constructor; lia.
  - vm_compute. reflexivity.
Defined.

Lemma get_pipeline_failed_build_outputs_witness :
  let outs' :=
    snd (fst (fst (Scenario.request
                     (Scenario.device Scenario.full_info
                        (Scenario.only Pipeline))
                     Scenario.image_fp16sa Scenario.no_outs
                     empty_cache []))) in
  out_shader_module outs' = VK_NULL_HANDLE
  /\ out_objects outs' = mkObjects 0 0 0 0
  /\ (false = false ->
      out_shader_info outs' = Scenario.the_shader_info).
Proof.
  apply (get_pipeline_failed_build_outputs false 8 Scenario.the_gpu
           (Scenario.device Scenario.full_info (Scenario.only Pipeline))
           3 Scenario.image_fp16sa [5] 8 8 1 Scenario.no_outs
           empty_cache []).
  - intros d [].
  - vm_compute. right. discriminate.
Defined.

Lemma get_pipeline_miss_builds_entry_witness :
  exists (cc : pipeline_cache_artifact) (es : trace),
    Scenario.request Scenario.good_device Scenario.image_fp16sa
      Scenario.no_outs empty_cache []
    = ((0, outs_of_artifact cc,
        mkCache ([] ++ [make_digest 8 3 Scenario.image_fp16sa [5] 8 8 1])
                ([] ++ [cc])),
       [] ++ es)
    /\ created_handles es = owned_handles cc
    /\ destroyed_handles es = []
    /\ non_null (shader_module cc) = true
    /\ find_digest (make_digest 8 3 Scenario.image_fp16sa [5] 8 8 1)
         ([] ++ [make_digest 8 3 Scenario.image_fp16sa [5] 8 8 1]) 0
       = Some 0%nat.
Proof.
  apply (get_pipeline_miss_builds_entry false 8 Scenario.the_gpu
           Scenario.good_device 3 Scenario.image_fp16sa [5] 8 8 1
           Scenario.no_outs empty_cache []).
  - intros d [].
  - vm_compute. intros [H | H]; apply H; reflexivity.
Defined.

Lemma reachable_digests_distinct_witness :
  let c2 :=
    snd (fst (Scenario.request Scenario.good_device
                Scenario.image_fp16sa_int8 Scenario.no_outs
                Scenario.cache1 [])) in
  length (cache_digests c2) = 2%nat
  /\ distinct_digests (cache_digests c2).
Proof.
  split; [vm_compute; reflexivity |].
  apply (reachable_digests_distinct false 8 Scenario.the_gpu
           Scenario.good_device).
  unfold Scenario.request.
  apply reach_get_pipeline. exact cache1_reachable.
Defined.

Lemma hit_survives_requests_witness :
  let lookup :=
    Scenario.request Scenario.good_device Scenario.image_fp16sa in
  let c' :=
    snd (fst (Scenario.request Scenario.good_device
                Scenario.image_fp16sa_int8 Scenario.no_outs
                Scenario.cache1 [])) in
  exists o : get_pipeline_outs,
    forall (outs1 outs2 : get_pipeline_outs) (t1 t2 : trace),
      lookup outs1 Scenario.cache1 t1 = ((0, o, Scenario.cache1), t1)
      /\ lookup outs2 c' t2 = ((0, o, c'), t2).
Proof.
  apply (hit_survives_requests false 8 Scenario.the_gpu
           Scenario.good_device Scenario.cache1
           3 Scenario.image_fp16sa [5] 8 8 1
           3 Scenario.image_fp16sa_int8 [5] 8 8 1 Scenario.no_outs []
           0 (make_digest 8 3 Scenario.image_fp16sa [5] 8 8 1)).
  - reflexivity.
  - vm_compute. reflexivity.
  - vm_compute. reflexivity.
Defined.
